(** * Access control and secure delivery of the research repository backend

    A shallow embedding of the visibility gate ([canView]), the
    bearer-or-signed-link middleware ([authorizeOrSig]), the file streamer and
    signed-link routes of [routes/research.js], and the repository filter and
    signed-link route of [routes/repositoryRoutes.js], followed by the
    properties established about them.

    Conventions of the embedding.
    - JavaScript strings are [string]; [toLowerCase] and [trim] are modelled on
      the ASCII range (letters A-Z, the six ASCII white-space characters).
    - A field of a lean Mongo document that may be absent or [null] is an
      [option]; the JavaScript idiom [x || dflt] is [str_or].
    - [new Date()] is an explicit argument [now]; instants are milliseconds
      in [Z].
    - [jwt.verify], Mongoose's ObjectId cast, [path.resolve] and
      [fs.existsSync] are library or operating-system services: they are
      section variables of the server environment. *)

From Stdlib Require Import Bool Arith ZArith List Ascii String Lia.
Import ListNotations.
Open Scope string_scope.
Open Scope bool_scope.

(* ================================================================= *)
(** ** JavaScript string primitives *)

Module Js.

(** [String.prototype.toLowerCase], ASCII range. *)
Definition lower_ascii (c : ascii) : ascii :=
  let n := nat_of_ascii c in
  if (65 <=? n)%nat && (n <=? 90)%nat then ascii_of_nat (n + 32) else c.

Fixpoint toLowerCase (s : string) : string :=
  match s with
  | EmptyString => EmptyString
  | String c s' => String (lower_ascii c) (toLowerCase s')
  end.

(** White space removed by [String.prototype.trim], ASCII range:
    TAB, LF, VT, FF, CR and SPACE. *)
Definition is_space (c : ascii) : bool :=
  let n := nat_of_ascii c in
  ((9 <=? n)%nat && (n <=? 13)%nat) || (n =? 32)%nat.

Fixpoint trimStart (s : string) : string :=
  match s with
  | EmptyString => EmptyString
  | String c s' => if is_space c then trimStart s' else s
  end.

Fixpoint trimEnd (s : string) : string :=
  match s with
  | EmptyString => EmptyString
  | String c s' =>
      let t := trimEnd s' in
      if is_space c && (t =? "") then EmptyString else String c t
  end.

Definition trim (s : string) : string := trimStart (trimEnd s).

(** Truthiness of a string value: the empty string is falsy. *)
Definition truthy (s : string) : bool := negb (s =? "").

(** [x || dflt] for a field that is absent, [null] or a string. *)
Definition str_or (x : option string) (dflt : string) : string :=
  match x with
  | Some s => if truthy s then s else dflt
  | None => dflt
  end.

(** [!!x] for such a field. *)
Definition truthy_opt (x : option string) : bool :=
  match x with
  | Some s => truthy s
  | None => false
  end.

(** [arr.includes(x)] on an array of strings. *)
Definition includes (l : list string) (x : string) : bool :=
  existsb (fun e => e =? x) l.

(** [s.startsWith(p)]. *)
Fixpoint startsWith (p s : string) : bool :=
  match p with
  | EmptyString => true
  | String a p' =>
      match s with
      | String b s' => Ascii.eqb a b && startsWith p' s'
      | EmptyString => false
      end
  end.

(** [s.slice(n)]. *)
Fixpoint slice (n : nat) (s : string) : string :=
  match n, s with
  | O, _ => s
  | S n', String _ s' => slice n' s'
  | S _, EmptyString => EmptyString
  end.

(** [s.slice(s.lastIndexOf(c))] when [c] occurs in [s]: the suffix of [s]
    that starts at the last occurrence of [c]. *)
Fixpoint sliceFromLast (c : ascii) (s : string) : option string :=
  match s with
  | EmptyString => None
  | String a s' =>
      match sliceFromLast c s' with
      | Some d => Some d
      | None => if Ascii.eqb a c then Some s else None
      end
  end.

(** [/lit$/.test(s)] for a literal [lit]: the matcher tries every start
    position from the left and succeeds when the rest of the input is
    exactly [lit]. *)
Fixpoint testLiteralAtEnd (lit s : string) : bool :=
  (s =? lit) ||
  match s with
  | EmptyString => false
  | String _ s' => testLiteralAtEnd lit s'
  end.

End Js.

(* ================================================================= *)
(** ** Data model *)

(** A lean [Research] document as the routes read it.  Only the fields that
    the access-control code touches are kept. *)
Record Research := mkResearch {
  doc_id         : string;                (* String(r._id) *)
  status         : option string;
  visibility     : option string;
  embargoUntil   : option Z;              (* Date, ms since the epoch *)
  allowedViewers : option (list string);  (* None: not an array *)
  author         : option string;
  student        : option string;
  adviser        : option string;
  uploadedBy     : option string;         (* String(ObjectId) *)
  uploaderRole   : option string;
  year           : option string;
  filePath       : option string;
  fileName       : option string;
  fileType       : option string
}.

(** The decoded payload of a JSON web token, bearer or signed link. *)
Record Claims := mkClaims {
  c_id       : option string;
  c_email    : option string;
  c_role     : option string;
  c_sub      : option string;
  c_fileId   : option string;
  c_isCampus : bool                       (* truthiness of payload.isCampus *)
}.

(** [req.user] as the middleware builds it.  [u_sig] is [Some payload]
    exactly when [_signedUrl] is set. *)
Record User := mkUser {
  u_id       : string;
  u_email    : string;
  u_role     : string;
  u_isCampus : bool;
  u_sig      : option Claims
}.

Definition u_signedUrl (u : User) : bool :=
  match u_sig u with Some _ => true | None => false end.

(* ================================================================= *)
(** ** middleware/authMiddleware.js and the helpers of routes/research.js *)

Definition MSUIIT_DOMAIN : string := "@g.msuiit.edu.ph".
Definition JWT_ISSUER : string := "repo-api".

(** [/@g\.msuiit\.edu\.ph$/i.test(String(email))]. *)
Definition isMsuiitG (email : string) : bool :=
  Js.testLiteralAtEnd MSUIIT_DOMAIN (Js.toLowerCase email).

Definition sameEmail (a b : option string) : bool :=
  Js.toLowerCase (Js.trim (Js.str_or a "")) =? Js.toLowerCase (Js.trim (Js.str_or b "")).

Definition userDomain (email : string) : string :=
  let e := Js.toLowerCase email in
  match Js.sliceFromLast "@"%char e with
  | Some d => d
  | None => ""
  end.

Definition isOwnerStaffOrAdviser (r : Research) (user : User) : bool :=
  let email := Js.toLowerCase (u_email user) in
  let userId := u_id user in
  let role := Js.toLowerCase (u_role user) in
  let isOwnerEmail :=
    Js.includes [Js.toLowerCase (Js.str_or (student r) "");
                 Js.toLowerCase (Js.str_or (author r) "")] email in
  let isUploader := Js.str_or (uploadedBy r) "" =? userId in
  let isStaff := (role =? "staff") || (role =? "admin") in
  let isAdviser := Js.truthy email && sameEmail (Some email) (adviser r) in
  isOwnerEmail || isUploader || isStaff || isAdviser.

(** Centralized gate for viewing a research file or generating a signed
    link.  [now] stands for [new Date()]. *)
Definition canView (r : Research) (user : User) (now : Z) : bool :=
  if isOwnerStaffOrAdviser r user then true else
  let viewerEmail := Js.toLowerCase (u_email user) in
  let viewerDomain := userDomain viewerEmail in
  let vis := Js.toLowerCase (Js.str_or (visibility r) "campus") in
  if vis =? "embargo" then
    match embargoUntil r with
    | Some until => if (now <? until)%Z then false else viewerDomain =? MSUIIT_DOMAIN
    | None => viewerDomain =? MSUIIT_DOMAIN
    end
  else if vis =? "public" then true
  else if vis =? "campus" then viewerDomain =? MSUIIT_DOMAIN
  else if vis =? "private" then
    let allow := match allowedViewers r with Some l => l | None => [] end in
    Js.includes (map Js.toLowerCase allow) viewerEmail
  else viewerDomain =? MSUIIT_DOMAIN.

(* ----------------------------------------------------------------- *)
(** *** The server environment and HTTP plumbing *)

(** What the process and its libraries provide.
    - [jwt_verify token secret issuer] is [jwt.verify] (with the 10 s clock
      tolerance); [None] stands for a thrown verification error (expired,
      malformed, wrong signature or wrong issuer).
    - [castObjectId] is Mongoose's cast of a route parameter to an ObjectId,
      rendered back as the canonical string; [None] is a thrown CastError.
    - [path_resolve] is [resolveAbsPathFromDB] on a non-empty stored path. *)
Record Env := mkEnv {
  jwt_verify        : string -> string -> option string -> option Claims;
  JWT_SECRET        : string;
  SIGNED_URL_SECRET : string;
  castObjectId      : string -> option string;
  path_resolve      : string -> string;
  fs_existsSync     : string -> bool;
  collection        : list Research;
  now               : Z
}.

Record Request := mkRequest {
  method        : string;
  authorization : option string;          (* req.headers.authorization *)
  query_token   : option string;          (* req.query.token *)
  query_sig     : option string;          (* req.query.sig *)
  params_id     : string                  (* req.params.id *)
}.

(** Outcome of a middleware: it answers itself or calls [next()] with
    [req.user] set. *)
Inductive MwResult :=
| Reject (code : nat) (error : string)
| Next (user : User).

(** What a route answers. *)
Inductive Response :=
| RError (code : nat) (error : string)                   (* res.status(code).json({ error }) *)
| RSignedUrl (target : string) (payload : Claims) (expiresIn : nat)
                                                         (* res.json({ url, expiresIn }) *)
| RStream (abs contentType name : string)                (* fs.createReadStream(abs).pipe(res) *)
| RItem (r : Research).                                  (* res.json(sanitize(r)) *)

(** The user object both middlewares build from a verified bearer token. *)
Definition bearerUser (decoded : Claims) : User :=
  let email := Js.toLowerCase (Js.str_or (c_email decoded) "") in
  {| u_id := Js.str_or (c_id decoded) "";
     u_email := email;
     u_role := Js.str_or (c_role decoded) "";
     u_isCampus := isMsuiitG email;
     u_sig := None |}.

Definition hasBearerClaims (decoded : Claims) : bool :=
  Js.truthy_opt (c_id decoded) && Js.truthy_opt (c_email decoded) &&
  Js.truthy_opt (c_role decoded).

Definition authorize (E : Env) (allowedRoles : list string) (req : Request) : MwResult :=
  let hdr := Js.str_or (authorization req) "" in
  let token :=
    if Js.startsWith "Bearer " hdr && Js.truthy (Js.slice 7 hdr) then Js.slice 7 hdr
    else if method req =? "GET" then Js.str_or (query_token req) "" else "" in
  if negb (Js.truthy token) then Reject 401 "Missing or invalid token" else
  match jwt_verify E token (JWT_SECRET E) (Some JWT_ISSUER) with
  | None => Reject 401 "Invalid or expired token"
  | Some decoded =>
      if negb (hasBearerClaims decoded) then Reject 400 "Malformed token" else
      let user := bearerUser decoded in
      if negb (List.length allowedRoles =? 0)%nat && negb (Js.includes allowedRoles (u_role user))
      then Reject 403 "Forbidden: insufficient privileges"
      else Next user
  end.

(** 2) Signed link path of [authorizeOrSig]. *)
Definition sigPath (E : Env) (req : Request) : MwResult :=
  let sig := Js.str_or (query_sig req) "" in
  if negb (Js.truthy sig) then Reject 401 "Missing or invalid token" else
  match jwt_verify E sig (SIGNED_URL_SECRET E) None with
  | None => Reject 401 "Invalid or expired signed link"
  | Some payload =>
      if negb (Js.truthy_opt (c_fileId payload)) || negb (Js.truthy_opt (c_sub payload))
      then Reject 400 "Malformed signed link"
      else Next {| u_id := Js.str_or (c_sub payload) "";
                   u_email := Js.toLowerCase (Js.str_or (c_email payload) "");
                   u_role := Js.str_or (c_role payload) "";
                   u_isCampus := c_isCampus payload;
                   u_sig := Some payload |}
  end.

Definition authorizeOrSig (E : Env) (req : Request) : MwResult :=
  let hdr := Js.str_or (authorization req) "" in
  if Js.startsWith "Bearer " hdr then
    (* 1) Bearer path *)
    match jwt_verify E (Js.slice 7 hdr) (JWT_SECRET E) (Some JWT_ISSUER) with
    | Some decoded =>
        if negb (hasBearerClaims decoded) then Reject 400 "Malformed token"
        else Next (bearerUser decoded)
    | None => sigPath E req               (* fall through to ?sig *)
    end
  else sigPath E req.

(* ----------------------------------------------------------------- *)
(** *** Mongoose queries *)

Inductive Lookup :=
| Threw
| Found (r : option Research).

Definition findById (E : Env) (id : string) : Lookup :=
  match castObjectId E id with
  | None => Threw
  | Some oid => Found (find (fun d => doc_id d =? oid) (collection E))
  end.

(** [.select("f1 f2 ...")]: an inclusive projection keeps [_id] and the
    listed paths; every other path is absent from the lean result. *)
Definition keep {A : Type} (fields : list string) (name : string) (v : option A) : option A :=
  if Js.includes fields name then v else None.

Definition select (fields : list string) (r : Research) : Research :=
  {| doc_id := doc_id r;
     status := keep fields "status" (status r);
     visibility := keep fields "visibility" (visibility r);
     embargoUntil := keep fields "embargoUntil" (embargoUntil r);
     allowedViewers := keep fields "allowedViewers" (allowedViewers r);
     author := keep fields "author" (author r);
     student := keep fields "student" (student r);
     adviser := keep fields "adviser" (adviser r);
     uploadedBy := keep fields "uploadedBy" (uploadedBy r);
     uploaderRole := keep fields "uploaderRole" (uploaderRole r);
     year := keep fields "year" (year r);
     filePath := keep fields "filePath" (filePath r);
     fileName := keep fields "fileName" (fileName r);
     fileType := keep fields "fileType" (fileType r) |}.

Definition findByIdSelect (E : Env) (id : string) (fields : list string) : Lookup :=
  match findById E id with
  | Threw => Threw
  | Found r => Found (option_map (select fields) r)
  end.

(** [r.status !== "approved"]. *)
Definition notApproved (r : Research) : bool :=
  match status r with
  | Some s => negb (s =? "approved")
  | None => true
  end.

(** A query filter, as far as the repository routes build one.  An object
    with several keys is the conjunction [FAnd] of its entries. *)
Inductive Value :=
| VNull
| VStr (s : string)
| VDate (t : Z)
| VArr (l : list string).

Inductive Cond :=
| CEq (v : Value)            (* path: v *)
| CNeNull                    (* path: { $ne: null } *)
| CLteDate (t : Z)           (* path: { $lte: <Date t> } *)
| CIn (vs : list string).    (* path: { $in: vs } *)

#[warnings="-register-all"] Inductive Filter :=
| FField (path : string) (conds : list Cond)
| FAnd (fs : list Filter)    (* { $and: fs }, or the keys of one object *)
| FOr (fs : list Filter).    (* { $or: fs } *)

(** The stored value at a path; [None] when the path is absent. *)
Definition fieldValue (r : Research) (path : string) : option Value :=
  if path =? "_id" then Some (VStr (doc_id r))
  else if path =? "status" then option_map VStr (status r)
  else if path =? "visibility" then option_map VStr (visibility r)
  else if path =? "embargoUntil" then option_map VDate (embargoUntil r)
  else if path =? "allowedViewers" then option_map VArr (allowedViewers r)
  else if path =? "author" then option_map VStr (author r)
  else if path =? "student" then option_map VStr (student r)
  else if path =? "adviser" then option_map VStr (adviser r)
  else if path =? "uploadedBy" then option_map VStr (uploadedBy r)
  else if path =? "uploaderRole" then option_map VStr (uploaderRole r)
  else if path =? "year" then option_map VStr (year r)
  else if path =? "filePath" then option_map VStr (filePath r)
  else if path =? "fileName" then option_map VStr (fileName r)
  else if path =? "fileType" then option_map VStr (fileType r)
  else None.

Definition isNullish (fv : option Value) : bool :=
  match fv with
  | None | Some VNull => true
  | _ => false
  end.

(** Equality match: a scalar query value matches an equal scalar, or an
    array that contains it; [null] matches an absent or null path. *)
Definition eqMatch (fv : option Value) (v : Value) : bool :=
  match v, fv with
  | VNull, _ => isNullish fv
  | VStr s, Some (VStr s') => s' =? s
  | VStr s, Some (VArr l) => Js.includes l s
  | VDate t, Some (VDate t') => (t' =? t)%Z
  | VArr l, Some (VArr l') => if list_eq_dec string_dec l' l then true else false
  | _, _ => false
  end.

Definition condMatch (fv : option Value) (c : Cond) : bool :=
  match c with
  | CEq v => eqMatch fv v
  | CNeNull => negb (isNullish fv)
  | CLteDate t => match fv with Some (VDate t') => (t' <=? t)%Z | _ => false end
  | CIn vs => existsb (fun s => eqMatch fv (VStr s)) vs
  end.

Fixpoint matches (f : Filter) (r : Research) : bool :=
  match f with
  | FField path conds => forallb (condMatch (fieldValue r path)) conds
  | FAnd fs => forallb (fun g => matches g r) fs
  | FOr fs => existsb (fun g => matches g r) fs
  end.

(** [Research.find(filter)], before sorting and paging. *)
Definition Research_find (E : Env) (f : Filter) : list Research :=
  filter (matches f) (collection E).

(* ================================================================= *)
(** ** routes/research.js *)

Definition resolveAbsPathFromDB (E : Env) (storedPath : option string) : option string :=
  if Js.truthy_opt storedPath then Some (path_resolve E (Js.str_or storedPath "")) else None.

(** Steps 3 to 5 of the file streamer. *)
Definition streamFile (E : Env) (r : Research) : Response :=
  match resolveAbsPathFromDB E (filePath r) with
  | None => RError 404 "File not found on disk"
  | Some abs =>
      if negb (fs_existsSync E abs) then RError 404 "File not found on disk"
      else RStream abs (Js.str_or (fileType r) "application/pdf")
                       (Js.str_or (fileName r) "document.pdf")
  end.

(** Handler of [GET /research/file/:id], after [authorizeOrSig]. *)
Definition fileHandler (E : Env) (user : User) (id : string) : Response :=
  match findById E id with
  | Threw => RError 500 "Failed to fetch file"
  | Found None => RError 404 "File not found"
  | Found (Some r) =>
      if negb (Js.truthy_opt (filePath r)) || notApproved r
      then RError 404 "File not found"
      else
        match u_sig user with
        | Some sig =>
            let claimed := Js.str_or (c_fileId sig) "" in
            if negb (claimed =? id)
            then RError 403 "Signed link does not match file"
            else streamFile E r
        | None =>
            if negb (canView r user (now E))
            then RError 403 "Not authorized to view this file"
            else streamFile E r
        end
  end.

Definition research_file (E : Env) (req : Request) : Response :=
  match authorizeOrSig E req with
  | Reject code error => RError code error
  | Next user => fileHandler E user (params_id req)
  end.

(** Handler of [GET /research/file/:id/signed], after [authorize()]. *)
Definition signedHandler (E : Env) (user : User) (id : string) : Response :=
  match findById E id with
  | Threw => RError 500 "Failed to create signed URL"
  | Found None => RError 404 "Not found"
  | Found (Some r) =>
      if notApproved r then RError 404 "Not found"
      else if negb (canView r user (now E)) then RError 403 "Not authorized"
      else RSignedUrl (doc_id r)
             {| c_id := None; c_email := None; c_role := None;
                c_sub := Some (u_id user); c_fileId := Some (doc_id r);
                c_isCampus := false |}
             120
  end.

Definition research_file_signed (E : Env) (req : Request) : Response :=
  match authorize E [] req with
  | Reject code error => RError code error
  | Next user => signedHandler E user (params_id req)
  end.

(* ================================================================= *)
(** ** routes/repositoryRoutes.js *)

(** Build a Mongo filter that returns ONLY records the current user is
    allowed to see.  [extra] is [None] for [{}] and [Some parts] for
    [{ $and: parts }]. *)
Definition buildAllowedFilter (user : User) (extra : option (list Filter)) (now : Z) : Filter :=
  let base := FField "status" [CEq (VStr "approved")] in
  let ors :=
    [ FField "visibility" [CEq (VStr "public")];
      FAnd [FField "visibility" [CEq (VStr "embargo")];
            FField "embargoUntil" [CNeNull; CLteDate now]];
      FAnd [FField "visibility" [CEq (VStr "private")];
            FField "allowedViewers" [CEq (VStr (Js.toLowerCase (u_email user)))]] ] in
  let ors :=
    if u_isCampus user then (ors ++ [FField "visibility" [CEq (VStr "campus")]])%list else ors in
  FAnd ([base; FOr ors] ++ match extra with Some parts => [FAnd parts] | None => [] end)%list.

(** [r.visibility === v]. *)
Definition visibilityIs (r : Research) (v : string) : bool :=
  match visibility r with
  | Some s => s =? v
  | None => false
  end.

(** The hand-written [allowed] expression shared by [GET /repository/:id]
    and [GET /repository/file/:id/signed]. *)
Definition repositoryAllowed (r : Research) (user : User) (now : Z) : bool :=
  visibilityIs r "public" ||
  (visibilityIs r "embargo" &&
   match embargoUntil r with Some until => (until <=? now)%Z | None => false end) ||
  (visibilityIs r "campus" && u_isCampus user) ||
  (visibilityIs r "private" &&
   match allowedViewers r with
   | Some l => Js.includes (map Js.toLowerCase l) (Js.toLowerCase (u_email user))
   | None => false
   end).

Definition detailFields : list string :=
  ["title"; "author"; "coAuthors"; "year"; "abstract"; "keywords"; "category";
   "categories"; "genreTags"; "landingPageUrl"; "fileName"; "uploaderRole";
   "createdAt"; "updatedAt"; "visibility"; "embargoUntil"; "allowedViewers"].

Definition signedFields : list string :=
  ["status"; "visibility"; "embargoUntil"; "allowedViewers"].

(** Handler of [GET /repository/:id], after [authorize()]. *)
Definition detailHandler (E : Env) (user : User) (id : string) : Response :=
  match findByIdSelect E id detailFields with
  | Threw => RError 500 "Failed to fetch research"
  | Found None => RError 404 "Research not found"
  | Found (Some r) =>
      if notApproved r then RError 404 "Research not found"
      else if negb (repositoryAllowed r user (now E))
      then RError 403 "Not authorized to view this item"
      else RItem r
  end.

Definition repository_detail (E : Env) (req : Request) : Response :=
  match authorize E [] req with
  | Reject code error => RError code error
  | Next user => detailHandler E user (params_id req)
  end.

(** Handler of [GET /repository/file/:id/signed], after [authorize()]. *)
Definition repoSignedHandler (E : Env) (user : User) (id : string) : Response :=
  match findByIdSelect E id signedFields with
  | Threw => RError 500 "Failed to create signed URL"
  | Found None => RError 404 "Not found"
  | Found (Some r) =>
      if notApproved r then RError 404 "Not found"
      else if negb (repositoryAllowed r user (now E)) then RError 403 "Not authorized"
      else RSignedUrl (doc_id r)
             {| c_id := None; c_email := Some (u_email user); c_role := Some (u_role user);
                c_sub := Some (u_id user); c_fileId := Some (doc_id r);
                c_isCampus := false |}
             120
  end.

Definition repository_file_signed (E : Env) (req : Request) : Response :=
  match authorize E [] req with
  | Reject code error => RError code error
  | Next user => repoSignedHandler E user (params_id req)
  end.

(** A response that hands out bytes or a capability. *)
Definition delivers (resp : Response) : bool :=
  match resp with
  | RStream _ _ _ | RSignedUrl _ _ _ => true
  | _ => false
  end.

(* ================================================================= *)
(** ** Notions used to state the properties *)

(** Case-insensitive equality of two identities. *)
Definition ciEq (a b : string) : Prop := Js.toLowerCase a = Js.toLowerCase b.

(** The allow-list of a document; a value that is not an array counts as
    the empty list. *)
Definition allowList (r : Research) : list string :=
  match allowedViewers r with
  | Some l => l
  | None => []
  end.

(** The visibility value that [canView] branches on is none of the four
    classes. *)
Definition unknownVisibility (r : Research) : Prop :=
  let vis := Js.toLowerCase (Js.str_or (visibility r) "campus") in
  vis <> "public" /\ vis <> "campus" /\ vis <> "private" /\ vis <> "embargo".

(** The retrieval predicate of the list and facet routes for a user:
    [buildAllowedFilter(user)] applied to one stored document. *)
Definition listAdmits (user : User) (r : Research) (now : Z) : bool :=
  matches (buildAllowedFilter user None now) r.

(** The access check that the file streamer applies to an approved document
    with a stored path: the binding of the signed link, or [canView]. *)
Definition passesFileCheck (E : Env) (r : Research) (user : User) (id : string) : bool :=
  match u_sig user with
  | Some sig => Js.str_or (c_fileId sig) "" =? id
  | None => canView r user (now E)
  end.

(** The three situations in which the file streamer has nothing to send. *)
Inductive Missing :=
| DocumentAbsent
| DocumentNotApproved
| BytesMissingOnDisk.

Definition missingCase (E : Env) (user : User) (id : string) (m : Missing) : Prop :=
  match m with
  | DocumentAbsent => findById E id = Found None
  | DocumentNotApproved =>
      exists r, findById E id = Found (Some r) /\ status r <> Some "approved"
  | BytesMissingOnDisk =>
      exists r, findById E id = Found (Some r) /\ status r = Some "approved" /\
                Js.truthy_opt (filePath r) = true /\
                passesFileCheck E r user id = true /\
                fs_existsSync E (path_resolve E (Js.str_or (filePath r) "")) = false
  end.

Definition missingBody (m : Missing) : string :=
  match m with
  | DocumentAbsent | DocumentNotApproved => "File not found"
  | BytesMissingOnDisk => "File not found on disk"
  end.

(* ================================================================= *)
(** ** A small deployment used for concrete runs *)

Module Sample.

Definition blank (id : string) : Research :=
  {| doc_id := id; status := Some "approved"; visibility := Some "public";
     embargoUntil := None; allowedViewers := Some [];
     author := Some "A. Author"; student := Some ""; adviser := Some "";
     uploadedBy := Some "u-librarian"; uploaderRole := Some "staff";
     year := Some "2024";
     filePath := Some "/uploads/research/a.pdf"; fileName := Some "a.pdf";
     fileType := Some "application/pdf" |}.

Definition withVisibility (v : option string) (until : option Z)
                          (viewers : list string) (r : Research) : Research :=
  {| doc_id := doc_id r; status := status r; visibility := v;
     embargoUntil := until; allowedViewers := Some viewers;
     author := author r; student := student r; adviser := adviser r;
     uploadedBy := uploadedBy r; uploaderRole := uploaderRole r; year := year r;
     filePath := filePath r; fileName := fileName r; fileType := fileType r |}.

Definition withStatus (s : string) (r : Research) : Research :=
  {| doc_id := doc_id r; status := Some s; visibility := visibility r;
     embargoUntil := embargoUntil r; allowedViewers := allowedViewers r;
     author := author r; student := student r; adviser := adviser r;
     uploadedBy := uploadedBy r; uploaderRole := uploaderRole r; year := year r;
     filePath := filePath r; fileName := fileName r; fileType := fileType r |}.

Definition withPath (p : string) (r : Research) : Research :=
  {| doc_id := doc_id r; status := status r; visibility := visibility r;
     embargoUntil := embargoUntil r; allowedViewers := allowedViewers r;
     author := author r; student := student r; adviser := adviser r;
     uploadedBy := uploadedBy r; uploaderRole := uploaderRole r; year := year r;
     filePath := Some p; fileName := fileName r; fileType := fileType r |}.

Definition withOwners (a st adv up : string) (r : Research) : Research :=
  {| doc_id := doc_id r; status := status r; visibility := visibility r;
     embargoUntil := embargoUntil r; allowedViewers := allowedViewers r;
     author := Some a; student := Some st; adviser := Some adv;
     uploadedBy := Some up; uploaderRole := uploaderRole r; year := year r;
     filePath := filePath r; fileName := fileName r; fileType := fileType r |}.

Definition docCampus   := withVisibility (Some "campus") None [] (blank "doc-campus").
Definition docEmbargo  := withVisibility (Some "embargo") (Some 1000%Z) [] (blank "doc-embargo").
Definition docPrivate  := withVisibility (Some "private") None ["Reader@Example.org"] (blank "doc-private").
Definition docLegacy   := withVisibility None None [] (blank "doc-legacy").
Definition docPending  := withStatus "pending" (blank "doc-pending").
Definition docLost     := withPath "/uploads/research/lost.pdf" (blank "doc-lost").

Definition docThesis   :=
  withOwners "Maria Cruz" "Maria.Cruz@g.msuiit.edu.ph" "Prof.Reyes@g.msuiit.edu.ph" "u-maria"
    (withVisibility (Some "embargo") (Some 1000%Z) [] (blank "doc-thesis")).

Definition bearer (id email role : string) : Claims :=
  {| c_id := Some id; c_email := Some email; c_role := Some role;
     c_sub := None; c_fileId := None; c_isCampus := false |}.

Definition capability (sub fileId : string) : Claims :=
  {| c_id := None; c_email := None; c_role := None;
     c_sub := Some sub; c_fileId := Some fileId; c_isCampus := false |}.

(** A table-driven stand-in for [jwt.verify]: a token verifies only under
    the secret, and with the issuer, it was minted for. *)
Definition verify (token secret : string) (issuer : option string) : option Claims :=
  if (secret =? "jwt-secret") && match issuer with Some i => i =? JWT_ISSUER | None => false end then
    if token =? "tok-campus" then Some (bearer "u-campus" "X@g.msuiit.edu.ph" "student")
    else if token =? "tok-external" then Some (bearer "u-external" "y@gmail.com" "student")
    else if token =? "tok-staff" then Some (bearer "u-staff" "z@gmail.com" "staff")
    else None
  else if (secret =? "sig-secret") && match issuer with None => true | Some _ => false end then
    if token =? "sig-campus-doc" then Some (capability "u-campus" "doc-campus")
    else None
  else None.

Definition server (t : Z) : Env :=
  {| jwt_verify := verify;
     JWT_SECRET := "jwt-secret";
     SIGNED_URL_SECRET := "sig-secret";
     castObjectId := fun id => if id =? "not-an-id" then None else Some id;
     path_resolve := fun p => "/srv/app" ++ p;
     fs_existsSync := fun p => p =? "/srv/app/uploads/research/a.pdf";
     collection := [docCampus; docEmbargo; docPrivate; docLegacy; docPending; docLost];
     now := t |}.

Definition get (id : string) (hdr sig : option string) : Request :=
  {| method := "GET"; authorization := hdr; query_token := None;
     query_sig := sig; params_id := id |}.

Definition campusStudent   : User := bearerUser (bearer "u-campus" "X@g.msuiit.edu.ph" "student").
Definition externalStudent : User := bearerUser (bearer "u-external" "y@gmail.com" "student").
Definition externalStaff   : User := bearerUser (bearer "u-staff" "z@gmail.com" "staff").

Definition adviserReyes    : User := bearerUser (bearer "u-reyes" "prof.reyes@G.MSUIIT.edu.ph" "faculty").
Definition reader          : User := bearerUser (bearer "u-reader" "READER@example.ORG" "student").

End Sample.

(* ================================================================= *)
(** ** Further code of the same files *)

(* ----------------------------------------------------------------- *)
(** *** List parsing: [toArray] (routes/research.js) and [toList]
        (routes/repositoryRoutes.js) *)

Module JsList.

(** [s.split(sep)] for a one-character separator: the empty string splits
    into one empty piece. *)
Fixpoint split (sep : ascii) (s : string) : list string :=
  match s with
  | EmptyString => [EmptyString]
  | String c s' =>
      if Ascii.eqb c sep then EmptyString :: split sep s'
      else match split sep s' with
           | piece :: rest => String c piece :: rest
           | [] => [String c EmptyString]
           end
  end.

(** [s] contains the character [c]. *)
Fixpoint contains (c : ascii) (s : string) : bool :=
  match s with
  | EmptyString => false
  | String a s' => Ascii.eqb a c || contains c s'
  end.

End JsList.

(** The argument of [toArray]: nothing (undefined, null), an array of
    strings, or a string. *)
Inductive CsvOrArr :=
| NoValue
| ArrayValue (l : list string)
| StringValue (s : string).

Definition toArray (csvOrArr : CsvOrArr) : list string :=
  match csvOrArr with
  | NoValue => []
  | ArrayValue l => filter Js.truthy (map Js.trim l)
  | StringValue s =>
      if Js.truthy s then filter Js.truthy (map Js.trim (JsList.split "," s)) else []
  end.

(** [toList(v)]: [String(v || "").split(",").map(trim).filter(Boolean)]. *)
Definition toList (v : option string) : list string :=
  filter Js.truthy (map Js.trim (JsList.split "," (Js.str_or v ""))).

(* ----------------------------------------------------------------- *)
(** *** The visibility stored by [POST /research/upload] *)

Definition ALLOWED_VIS : list string := ["public"; "campus"; "private"; "embargo"].

(** The [visibility] field that the upload route writes, from the value of
    the request body. *)
Definition uploadVisibility (visibility : option string) : string :=
  let v := Js.toLowerCase (Js.str_or visibility "") in
  if Js.includes ALLOWED_VIS v then v else "campus".

(* ----------------------------------------------------------------- *)
(** *** [GET /research/] : the role-scoped list of approved records *)

(** What a list route answers: an error, the records found
    ([res.json(list)]), or one page of them with its [meta] block. *)
Inductive ListResponse :=
| LError (code : nat) (error : string)
| LList (items : list Research)
| LPage (items : list Research) (total : nat) (page limit pages : Z).

Definition approvedListFields : list string :=
  ["title"; "abstract"; "adviser"; "author"; "coAuthors"; "student"; "status";
   "submissionType"; "fileName"; "fileType"; "createdAt"; "uploadedBy"; "visibility";
   "embargoUntil"; "allowedViewers"; "uploaderRole"; "year"; "keywords"; "category";
   "categories"; "genreTags"].

(** The filter of [GET /research/].  [userId] is the id of the user as the
    ObjectId path [uploadedBy] receives it. *)
Definition approvedListFilter (user : User) (userId : string) : Filter :=
  let email := Js.toLowerCase (u_email user) in
  let role := Js.toLowerCase (u_role user) in
  if role =? "student" then
    FAnd [FField "status" [CEq (VStr "approved")];
          FOr [FField "student" [CEq (VStr email)];
               FField "author" [CEq (VStr email)];
               FField "uploadedBy" [CEq (VStr userId)]]]
  else if (role =? "staff") || (role =? "admin") then
    FAnd [FField "status" [CEq (VStr "approved")];
          FOr [FField "uploaderRole" [CIn ["staff"; "admin"]];
               FField "uploadedBy" [CEq (VStr userId)]]]
  else
    FAnd [FField "status" [CEq (VStr "approved")];
          FOr [FField "uploaderRole" [CIn ["staff"; "admin"]];
               FField "uploadedBy" [CEq (VStr userId)]]].

(** [GET /research/], up to the order of the answer ([sortStage] stands for
    [.sort({ updatedAt: -1 })]).  Mongoose casts the value given for
    [uploadedBy] to an ObjectId; a value that cannot be cast makes the query
    throw, which the route answers with 500. *)
Definition research_list (E : Env) (sortStage : list Research -> list Research)
                         (req : Request) : ListResponse :=
  match authorize E [] req with
  | Reject code error => LError code error
  | Next user =>
      match castObjectId E (u_id user) with
      | None => LError 500 "Failed to fetch approved research"
      | Some oid =>
          LList (map (select approvedListFields)
                     (sortStage (Research_find E (approvedListFilter user oid))))
      end
  end.

(* ----------------------------------------------------------------- *)
(** *** [GET /repository/] : search with paging *)










(* ----------------------------------------------------------------- *)
(** *** Notions used to state further properties *)

(** [p] is followed by [suffix] in [s]. *)
Definition endsWith (suffix s : string) : Prop := exists p, s = p ++ suffix.

(** No element is empty and none has white space at either end. *)
Definition cleanEntries (l : list string) : Prop :=
  forall e, In e l -> e <> "" /\ Js.trim e = e.

(** The value of [visibility] is, letter for letter, none of the four
    classes that the repository routes compare it with. *)
Definition notAClass (r : Research) : Prop :=
  forall v, In v ALLOWED_VIS -> visibility r <> Some v.

Module Sample2.

(** A private record that the campus student of [Sample] submitted. *)
Definition studentDoc : Research :=
  Sample.withOwners "x@g.msuiit.edu.ph" "x@g.msuiit.edu.ph" "" "u-campus"
    (Sample.withStatus "approved" (Sample.withVisibility (Some "private") None []
       (Sample.blank "doc-own"))).

(** The deployment of [Sample] with that record added.  In it the link
    that [GET /research/file/:id/signed] mints for the campus student on
    [doc-campus] is the token [sig-campus-doc]. *)
Definition server (t : Z) : Env :=
  {| jwt_verify := Sample.verify;
     JWT_SECRET := "jwt-secret";
     SIGNED_URL_SECRET := "sig-secret";
     castObjectId := fun id => if id =? "not-an-id" then None else Some id;
     path_resolve := fun p => "/srv/app" ++ p;
     fs_existsSync := fun p => p =? "/srv/app/uploads/research/a.pdf";
     collection := [Sample.docCampus; Sample.docEmbargo; Sample.docPrivate; studentDoc;
                    Sample.docPending];
     now := t |}.

Definition post (hdr token : option string) : Request :=
  {| method := "POST"; authorization := hdr; query_token := token;
     query_sig := None; params_id := "" |}.

End Sample2.

(* ================================================================= *)
(** * Properties *)

(* ----------------------------------------------------------------- *)
(** ** Facts about the string primitives *)

Module JsFacts.
Import Js.

Ltac by_cases_on_ascii c :=
  destruct c as [[] [] [] [] [] [] [] []]; vm_compute; reflexivity.

Lemma lower_ascii_idem (c : ascii) : lower_ascii (lower_ascii c) = lower_ascii c.
Proof. by_cases_on_ascii c. Qed.

Lemma is_space_lower (c : ascii) : is_space (lower_ascii c) = is_space c.
Proof. by_cases_on_ascii c. Qed.

Lemma toLowerCase_idem (s : string) : toLowerCase (toLowerCase s) = toLowerCase s.
Proof.
  induction s as [|c s IH]; simpl.
  - reflexivity.
  - now rewrite lower_ascii_idem, IH.
Qed.

Lemma eqb_empty_lower (s : string) : (toLowerCase s =? "") = (s =? "").
Proof. destruct s; reflexivity. Qed.

Lemma truthy_lower (s : string) : truthy (toLowerCase s) = truthy s.
Proof. unfold truthy. now rewrite eqb_empty_lower. Qed.

Lemma truthy_true (s : string) : truthy s = true <-> s <> "".
Proof.
  unfold truthy. rewrite negb_true_iff. split.
  - intros H ->. discriminate.
  - intros H. now apply String.eqb_neq.
Qed.

Lemma str_or_some (s d : string) : s <> "" -> str_or (Some s) d = s.
Proof. intros H. unfold str_or. apply truthy_true in H. now rewrite H. Qed.

Lemma str_or_empty (x : option string) : str_or x "" = match x with Some s => s | None => "" end.
Proof.
  destruct x as [s|]; [|reflexivity].
  unfold str_or, truthy. destruct (s =? "") eqn:Hs; [|reflexivity].
  apply String.eqb_eq in Hs. now subst.
Qed.

Lemma trimStart_lower (s : string) :
  toLowerCase (trimStart s) = trimStart (toLowerCase s).
Proof.
  induction s as [|c s IH]; simpl.
  - reflexivity.
  - rewrite is_space_lower. destruct (is_space c); [exact IH | reflexivity].
Qed.

Lemma trimEnd_lower (s : string) :
  toLowerCase (trimEnd s) = trimEnd (toLowerCase s).
Proof.
  induction s as [|c s IH]; simpl.
  - reflexivity.
  - rewrite is_space_lower, <- IH, eqb_empty_lower.
    destruct (is_space c && (trimEnd s =? "")); reflexivity.
Qed.

Lemma trim_lower (s : string) : toLowerCase (trim s) = trim (toLowerCase s).
Proof. unfold trim. now rewrite trimStart_lower, trimEnd_lower. Qed.

Lemma includes_In (l : list string) (x : string) :
  includes l x = true <-> In x l.
Proof.
  unfold includes. rewrite existsb_exists. split.
  - intros [e [Hin He]]. apply String.eqb_eq in He. now subst.
  - intros Hin. exists x. split; [assumption | apply String.eqb_refl].
Qed.

Lemma includes_nil (x : string) : includes [] x = false.
Proof. reflexivity. Qed.

(** A string that ends some input after an [@] has its last [@] there. *)
Lemma sliceFromLast_at_none (s : string) :
  sliceFromLast "@" s = None -> forall t, (String "@" t =? s) = false.
Proof.
  destruct s as [|a s]; intros H t.
  - reflexivity.
  - simpl in H. destruct (sliceFromLast "@" s); [discriminate|].
    destruct (Ascii.eqb a "@") eqn:Ha; [discriminate|].
    apply String.eqb_neq. intros Heq. injection Heq as Hc _. subst a.
    now rewrite Ascii.eqb_refl in Ha.
Qed.

End JsFacts.

(* ----------------------------------------------------------------- *)
(** ** Domain affiliation *)

(** The anchored pattern of [isMsuiitG] and the last-[@] slice of
    [userDomain] recognise the same addresses. *)
Lemma testLiteralAtEnd_sliceFromLast (s : string) :
  Js.testLiteralAtEnd MSUIIT_DOMAIN s =
  match Js.sliceFromLast "@" s with
  | Some d => d =? MSUIIT_DOMAIN
  | None => false
  end.
Proof.
  induction s as [|a s IH].
  - reflexivity.
  - cbn [Js.testLiteralAtEnd Js.sliceFromLast]. rewrite IH.
    destruct (Js.sliceFromLast "@" s) as [d|] eqn:Hs.
    + destruct (String a s =? MSUIIT_DOMAIN) eqn:He; [|reflexivity].
      apply String.eqb_eq in He. unfold MSUIIT_DOMAIN in He.
      injection He as _ Htail. subst s. vm_compute in Hs. discriminate.
    + rewrite orb_false_r. destruct (Ascii.eqb a "@") eqn:Ha; [reflexivity|].
      apply String.eqb_neq. unfold MSUIIT_DOMAIN. intros He.
      injection He as Hc _. subst a. now rewrite Ascii.eqb_refl in Ha.
Qed.

Lemma isMsuiitG_userDomain (email : string) :
  isMsuiitG email = (userDomain email =? MSUIIT_DOMAIN).
Proof.
  unfold isMsuiitG, userDomain. rewrite testLiteralAtEnd_sliceFromLast.
  destruct (Js.sliceFromLast "@" (Js.toLowerCase email)); reflexivity.
Qed.

(** For a user resolved from a bearer token, the [isCampus] flag that the
    repository routes read is the domain test that [canView] performs. *)
Lemma bearerUser_isCampus (decoded : Claims) :
  u_isCampus (bearerUser decoded) =
  (userDomain (Js.toLowerCase (u_email (bearerUser decoded))) =? MSUIIT_DOMAIN).
Proof.
  unfold bearerUser; cbn [u_isCampus u_email].
  rewrite JsFacts.toLowerCase_idem. apply isMsuiitG_userDomain.
Qed.

(* ----------------------------------------------------------------- *)
(** ** The gate [canView], branch by branch *)

Lemma visibility_known (r : Research) (v : string) :
  visibility r = Some v -> v <> "" ->
  Js.toLowerCase (Js.str_or (visibility r) "campus") = Js.toLowerCase v.
Proof. intros -> Hv. now rewrite JsFacts.str_or_some. Qed.

Lemma canView_owner (r : Research) (u : User) (t : Z) :
  isOwnerStaffOrAdviser r u = true -> canView r u t = true.
Proof. intros H. unfold canView. now rewrite H. Qed.

Lemma canView_embargo (r : Research) (u : User) (t until : Z) :
  isOwnerStaffOrAdviser r u = false ->
  visibility r = Some "embargo" -> embargoUntil r = Some until ->
  canView r u t =
  (until <=? t)%Z && (userDomain (Js.toLowerCase (u_email u)) =? MSUIIT_DOMAIN).
Proof.
  intros Hown Hvis Hemb. unfold canView.
  rewrite Hown, Hvis, Hemb. cbn [Js.str_or Js.truthy negb].
  change (Js.toLowerCase "embargo" =? "embargo") with true. cbv iota.
  rewrite Z.leb_antisym. destruct (t <? until)%Z; reflexivity.
Qed.

Lemma canView_public (r : Research) (u : User) (t : Z) :
  visibility r = Some "public" -> canView r u t = true.
Proof.
  intros Hvis. unfold canView. rewrite Hvis.
  destruct (isOwnerStaffOrAdviser r u); reflexivity.
Qed.

Lemma canView_campus (r : Research) (u : User) (t : Z) :
  isOwnerStaffOrAdviser r u = false -> visibility r = Some "campus" ->
  canView r u t = (userDomain (Js.toLowerCase (u_email u)) =? MSUIIT_DOMAIN).
Proof. intros Hown Hvis. unfold canView. now rewrite Hown, Hvis. Qed.

Lemma canView_private (r : Research) (u : User) (t : Z) :
  isOwnerStaffOrAdviser r u = false -> visibility r = Some "private" ->
  canView r u t =
  Js.includes (map Js.toLowerCase (allowList r)) (Js.toLowerCase (u_email u)).
Proof. intros Hown Hvis. unfold canView, allowList. now rewrite Hown, Hvis. Qed.

Lemma canView_fallback (r : Research) (u : User) (t : Z) :
  isOwnerStaffOrAdviser r u = false ->
  visibility r = None \/ unknownVisibility r ->
  canView r u t = (userDomain (Js.toLowerCase (u_email u)) =? MSUIIT_DOMAIN).
Proof.
  intros Hown [Hnone | (Hpub & Hcam & Hpri & Hemb)]; unfold canView; rewrite Hown.
  - now rewrite Hnone.
  - cbv zeta. apply String.eqb_neq in Hpub, Hcam, Hpri, Hemb.
    now rewrite Hemb, Hpub, Hcam, Hpri.
Qed.

(* ----------------------------------------------------------------- *)
(** ** Ownership and the private allow-list *)

Lemma sameEmail_ciEq (e : string) (b : option string) :
  ciEq e (Js.str_or b "") -> sameEmail (Some (Js.toLowerCase e)) b = true.
Proof.
  unfold ciEq, sameEmail. intros H.
  rewrite (JsFacts.str_or_empty (Some _)).
  rewrite !JsFacts.trim_lower, JsFacts.toLowerCase_idem, H.
  apply String.eqb_refl.
Qed.

(** C6.  A principal whose e-mail equals, up to letter case, the author, the
    student submitter or the adviser of a document, or whose account id is
    the recorded uploader, passes [canView] at every instant, whatever the
    visibility class and the embargo date of the document. *)
Theorem C6_owner_passes_canView (r : Research) (u : User) (t : Z) :
  ciEq (u_email u) (Js.str_or (author r) "") \/
  ciEq (u_email u) (Js.str_or (student r) "") \/
  uploadedBy r = Some (u_id u) \/
  (u_email u <> "" /\ ciEq (u_email u) (Js.str_or (adviser r) "")) ->
  canView r u t = true.
Proof.
  intros H. apply canView_owner. unfold isOwnerStaffOrAdviser.
  destruct H as [Ha | [Hs | [Hu | [Hne Hadv]]]].
  - replace (Js.includes _ _) with true; [reflexivity|].
    symmetry. apply JsFacts.includes_In. rewrite Ha. right. now left.
  - replace (Js.includes _ _) with true; [reflexivity|].
    symmetry. apply JsFacts.includes_In. rewrite Hs. now left.
  - rewrite Hu, (JsFacts.str_or_empty (Some (u_id u))), String.eqb_refl.
    now rewrite orb_true_r.
  - rewrite JsFacts.truthy_lower, (proj2 (JsFacts.truthy_true _) Hne).
    rewrite (sameEmail_ciEq _ _ Hadv). now rewrite !orb_true_r.
Qed.

Lemma C6_owner_passes_canView_witness :
  (u_email Sample.adviserReyes <> "" /\
   ciEq (u_email Sample.adviserReyes) (Js.str_or (adviser Sample.docThesis) "")) /\
  canView Sample.docThesis Sample.adviserReyes 0 = true.
Proof.
  assert (Hadv : u_email Sample.adviserReyes <> "" /\
                 ciEq (u_email Sample.adviserReyes) (Js.str_or (adviser Sample.docThesis) "")).
  { split; [discriminate | reflexivity]. }
  split; [exact Hadv|].
  apply (C6_owner_passes_canView Sample.docThesis Sample.adviserReyes 0).
  right; right; right. exact Hadv.
Defined.

(** C7.  For a document of visibility [private] and a principal that is
    neither owner, uploader, adviser nor staff, [canView] allows exactly when
    the lowercased e-mail of the principal occurs in the lowercased
    allow-list; an empty (or absent) allow-list denies; and the decision is
    the same for any two such checks whose e-mails and allow-lists agree up
    to letter case. *)
Theorem C7_private_allow_list (r : Research) (u : User) (t : Z) :
  isOwnerStaffOrAdviser r u = false ->
  visibility r = Some "private" ->
  (canView r u t = true <->
     In (Js.toLowerCase (u_email u)) (map Js.toLowerCase (allowList r))) /\
  (allowList r = [] -> canView r u t = false) /\
  (forall r' u' t',
     isOwnerStaffOrAdviser r' u' = false -> visibility r' = Some "private" ->
     ciEq (u_email u') (u_email u) ->
     map Js.toLowerCase (allowList r') = map Js.toLowerCase (allowList r) ->
     canView r' u' t' = canView r u t).
Proof.
  intros Hown Hvis. rewrite (canView_private r u t Hown Hvis).
  split; [apply JsFacts.includes_In | split].
  - intros ->. reflexivity.
  - intros r' u' t' Hown' Hvis' Hmail Hlist.
    rewrite (canView_private r' u' t' Hown' Hvis').
    unfold ciEq in Hmail. now rewrite Hmail, Hlist.
Qed.

Lemma C7_private_allow_list_witness :
  canView Sample.docPrivate Sample.reader 0 = true /\
  canView Sample.docPrivate Sample.campusStudent 0 = false.
Proof.
  destruct (C7_private_allow_list Sample.docPrivate Sample.reader 0
              eq_refl eq_refl) as [Hiff _].
  destruct (C7_private_allow_list Sample.docPrivate Sample.campusStudent 0
              eq_refl eq_refl) as [Hiff' _].
  split.
  - apply Hiff. left. reflexivity.
  - destruct (canView Sample.docPrivate Sample.campusStudent 0) eqn:Hc; [|reflexivity].
    exfalso. destruct (proj1 Hiff' eq_refl) as [Hx | []]. discriminate Hx.
Defined.

(* ----------------------------------------------------------------- *)
(** ** Documents that are not approved *)

(** What [buildAllowedFilter] selects, read off the stored fields. *)
Lemma listAdmits_unfold (u : User) (r : Research) (t : Z) :
  listAdmits u r t =
  negb (notApproved r) &&
  (visibilityIs r "public" ||
   (visibilityIs r "embargo" &&
    match embargoUntil r with Some until => (until <=? t)%Z | None => false end) ||
   (visibilityIs r "private" &&
    match allowedViewers r with
    | Some l => Js.includes l (Js.toLowerCase (u_email u))
    | None => false
    end) ||
   (u_isCampus u && visibilityIs r "campus")).
Proof.
  unfold listAdmits, buildAllowedFilter, notApproved, visibilityIs.
  destruct (u_isCampus u);
    cbn [matches forallb existsb app fieldValue String.eqb Ascii.eqb Bool.eqb
         condMatch eqMatch isNullish];
    destruct (status r) as [s|], (visibility r) as [v|],
             (embargoUntil r) as [until|], (allowedViewers r) as [l|];
    cbn [option_map forallb existsb condMatch eqMatch isNullish negb andb orb];
    repeat rewrite ?andb_true_r, ?orb_false_r, ?andb_false_r, ?orb_false_l, ?negb_involutive;
    try reflexivity.
  all: now rewrite ?orb_assoc.
Qed.

Lemma notApproved_iff (r : Research) :
  notApproved r = true <-> status r <> Some "approved".
Proof.
  unfold notApproved. destruct (status r) as [s|].
  - rewrite negb_true_iff, String.eqb_neq. split; congruence.
  - split; [discriminate | reflexivity].
Qed.

Lemma notApproved_select_signed (r : Research) :
  notApproved (select signedFields r) = notApproved r.
Proof. reflexivity. Qed.

Lemma fileHandler_unapproved (E : Env) (u : User) (id : string) (r : Research) :
  findById E id = Found (Some r) -> status r <> Some "approved" ->
  fileHandler E u id = RError 404 "File not found".
Proof.
  intros Hfind Hst. unfold fileHandler. rewrite Hfind.
  rewrite (proj2 (notApproved_iff r) Hst), orb_true_r. reflexivity.
Qed.

Lemma signedHandler_unapproved (E : Env) (u : User) (id : string) (r : Research) :
  findById E id = Found (Some r) -> status r <> Some "approved" ->
  signedHandler E u id = RError 404 "Not found".
Proof.
  intros Hfind Hst. unfold signedHandler. rewrite Hfind.
  now rewrite (proj2 (notApproved_iff r) Hst).
Qed.

Lemma repoSignedHandler_unapproved (E : Env) (u : User) (id : string) (r : Research) :
  findById E id = Found (Some r) -> status r <> Some "approved" ->
  repoSignedHandler E u id = RError 404 "Not found".
Proof.
  intros Hfind Hst. unfold repoSignedHandler, findByIdSelect. rewrite Hfind.
  cbn [option_map]. rewrite notApproved_select_signed.
  now rewrite (proj2 (notApproved_iff r) Hst).
Qed.

(** C4.  When the requested document exists but its status is not
    [approved], the file streamer and both signed-link routes answer without
    streaming a byte or minting a link, whoever asks and whenever: a request
    that passes the middleware gets the 404 of the handler, any other the
    rejection of the middleware; nor does the list predicate of any user
    select the document. *)
Theorem C4_unapproved_never_delivered (E : Env) (req : Request) (r : Research) :
  findById E (params_id req) = Found (Some r) ->
  status r <> Some "approved" ->
  delivers (research_file E req) = false /\
  delivers (research_file_signed E req) = false /\
  delivers (repository_file_signed E req) = false /\
  (forall user,
     fileHandler E user (params_id req) = RError 404 "File not found" /\
     signedHandler E user (params_id req) = RError 404 "Not found" /\
     repoSignedHandler E user (params_id req) = RError 404 "Not found" /\
     listAdmits user r (now E) = false).
Proof.
  intros Hfind Hst.
  assert (Hh : forall user,
     fileHandler E user (params_id req) = RError 404 "File not found" /\
     signedHandler E user (params_id req) = RError 404 "Not found" /\
     repoSignedHandler E user (params_id req) = RError 404 "Not found" /\
     listAdmits user r (now E) = false).
  { intros user. split; [|split; [|split]].
    - eapply fileHandler_unapproved; eassumption.
    - eapply signedHandler_unapproved; eassumption.
    - eapply repoSignedHandler_unapproved; eassumption.
    - rewrite listAdmits_unfold. now rewrite (proj2 (notApproved_iff r) Hst). }
  split; [|split; [|split; [|exact Hh]]].
  - unfold research_file. destruct (authorizeOrSig E req) as [c e | user]; [reflexivity|].
    now rewrite (proj1 (Hh user)).
  - unfold research_file_signed. destruct (authorize E [] req) as [c e | user]; [reflexivity|].
    now rewrite (proj1 (proj2 (Hh user))).
  - unfold repository_file_signed. destruct (authorize E [] req) as [c e | user]; [reflexivity|].
    now rewrite (proj1 (proj2 (proj2 (Hh user)))).
Qed.

Lemma C4_unapproved_never_delivered_witness :
  research_file (Sample.server 0)
    (Sample.get "doc-pending" (Some "Bearer tok-staff") None) = RError 404 "File not found" /\
  delivers (research_file_signed (Sample.server 0)
    (Sample.get "doc-pending" (Some "Bearer tok-staff") None)) = false.
Proof.
  pose proof (C4_unapproved_never_delivered (Sample.server 0)
                (Sample.get "doc-pending" (Some "Bearer tok-staff") None)
                Sample.docPending eq_refl) as H.
  assert (Hst : status Sample.docPending <> Some "approved") by discriminate.
  destruct (H Hst) as (_ & Hsigned & _ & Hhandlers).
  split; [|exact Hsigned].
  exact (proj1 (Hhandlers Sample.externalStaff)).
Defined.

(* ----------------------------------------------------------------- *)
(** ** The bearer-or-signed-link middleware *)

Lemma bearer_header (token : string) :
  Js.str_or (Some ("Bearer " ++ token)) "" = "Bearer " ++ token /\
  Js.startsWith "Bearer " ("Bearer " ++ token) = true /\
  Js.slice 7 ("Bearer " ++ token) = token.
Proof. split; [reflexivity | split; reflexivity]. Qed.

Lemma truthy_opt_str_or (x : option string) :
  Js.truthy_opt x = true -> x = Some (Js.str_or x "") /\ Js.str_or x "" <> "".
Proof.
  destruct x as [s|]; [|discriminate]. cbn [Js.truthy_opt]. intros H.
  unfold Js.str_or. rewrite H. split; [reflexivity|].
  now apply JsFacts.truthy_true.
Qed.

Lemma sigPath_valid (E : Env) (req : Request) (sig : string) (payload : Claims) :
  query_sig req = Some sig -> sig <> "" ->
  jwt_verify E sig (SIGNED_URL_SECRET E) None = Some payload ->
  Js.truthy_opt (c_fileId payload) = true ->
  Js.truthy_opt (c_sub payload) = true ->
  sigPath E req =
  Next {| u_id := Js.str_or (c_sub payload) "";
          u_email := Js.toLowerCase (Js.str_or (c_email payload) "");
          u_role := Js.str_or (c_role payload) "";
          u_isCampus := c_isCampus payload;
          u_sig := Some payload |}.
Proof.
  intros Hq Hne Hver Hfile Hsub. unfold sigPath.
  rewrite Hq, (JsFacts.str_or_some sig "" Hne).
  rewrite (proj2 (JsFacts.truthy_true sig) Hne). cbn [negb].
  now rewrite Hver, Hfile, Hsub.
Qed.

(** C10.  In [authorizeOrSig], a request whose [Authorization] header
    carries a bearer token that fails verification, and whose query string
    carries a signed link that verifies and names a file and a subject, is
    not rejected: the middleware calls [next()] with a user whose id is the
    subject of the signed link and which is marked as coming from a signed
    link. *)
Theorem C10_failed_bearer_falls_through
    (E : Env) (req : Request) (token sig : string) (payload : Claims) :
  authorization req = Some ("Bearer " ++ token) ->
  jwt_verify E token (JWT_SECRET E) (Some JWT_ISSUER) = None ->
  query_sig req = Some sig -> sig <> "" ->
  jwt_verify E sig (SIGNED_URL_SECRET E) None = Some payload ->
  Js.truthy_opt (c_fileId payload) = true ->
  Js.truthy_opt (c_sub payload) = true ->
  exists user,
    authorizeOrSig E req = Next user /\
    Some (u_id user) = c_sub payload /\
    u_sig user = Some payload /\
    u_email user = Js.toLowerCase (Js.str_or (c_email payload) "") /\
    u_role user = Js.str_or (c_role payload) "" /\
    u_isCampus user = c_isCampus payload.
Proof.
  intros Hhdr Hbad Hq Hne Hver Hfile Hsub.
  eexists. split.
  - unfold authorizeOrSig. rewrite Hhdr.
    destruct (bearer_header token) as (-> & -> & ->).
    rewrite Hbad. eapply sigPath_valid; eassumption.
  - cbn [u_id u_sig u_email u_role u_isCampus].
    destruct (truthy_opt_str_or _ Hsub) as [Heq _].
    repeat split. now rewrite <- Heq.
Qed.

Lemma C10_failed_bearer_falls_through_witness :
  exists user,
    authorizeOrSig (Sample.server 0)
      (Sample.get "doc-campus" (Some "Bearer tok-expired") (Some "sig-campus-doc")) = Next user /\
    u_id user = "u-campus".
Proof.
  destruct (C10_failed_bearer_falls_through (Sample.server 0)
              (Sample.get "doc-campus" (Some "Bearer tok-expired") (Some "sig-campus-doc"))
              "tok-expired" "sig-campus-doc" (Sample.capability "u-campus" "doc-campus")
              eq_refl eq_refl eq_refl ltac:(discriminate) eq_refl eq_refl eq_refl)
    as (user & Hnext & Hid & _).
  exists user. split; [exact Hnext|]. now injection Hid.
Defined.

(* ----------------------------------------------------------------- *)
(** ** The file streamer *)

Lemma notApproved_approved (r : Research) :
  status r = Some "approved" -> notApproved r = false.
Proof. intros H. unfold notApproved. now rewrite H. Qed.

Lemma fileHandler_absent (E : Env) (u : User) (id : string) :
  findById E id = Found None -> fileHandler E u id = RError 404 "File not found".
Proof. intros H. unfold fileHandler. now rewrite H. Qed.

Lemma fileHandler_no_path (E : Env) (u : User) (id : string) (r : Research) :
  findById E id = Found (Some r) -> Js.truthy_opt (filePath r) = false ->
  fileHandler E u id = RError 404 "File not found".
Proof. intros Hfind Hp. unfold fileHandler. now rewrite Hfind, Hp. Qed.

(** Past the existence and status guard, the handler is the access check
    followed by the streaming steps. *)
Lemma fileHandler_deliverable (E : Env) (u : User) (id : string) (r : Research) :
  findById E id = Found (Some r) ->
  Js.truthy_opt (filePath r) = true -> status r = Some "approved" ->
  fileHandler E u id =
  if passesFileCheck E r u id then streamFile E r
  else RError 403 (match u_sig u with
                   | Some _ => "Signed link does not match file"
                   | None => "Not authorized to view this file"
                   end).
Proof.
  intros Hfind Hp Hst. unfold fileHandler, passesFileCheck.
  rewrite Hfind, Hp, (notApproved_approved r Hst). cbn [negb orb].
  destruct (u_sig u) as [sig|].
  - destruct (Js.str_or (c_fileId sig) "" =? id); reflexivity.
  - destruct (canView r u (now E)); reflexivity.
Qed.

Lemma fileHandler_mismatch_never_delivers
    (E : Env) (u : User) (id : string) (payload : Claims) :
  u_sig u = Some payload -> Js.str_or (c_fileId payload) "" <> id ->
  delivers (fileHandler E u id) = false.
Proof.
  intros Hsig Hneq. unfold fileHandler. rewrite Hsig.
  apply String.eqb_neq in Hneq. rewrite Hneq. cbn [negb].
  destruct (findById E id) as [|[r|]]; try reflexivity.
  destruct (negb (Js.truthy_opt (filePath r)) || notApproved r); reflexivity.
Qed.

(** C8 (as amended).  When the middleware resolves a request to the file
    streamer through the signed-link path and the file id bound in the link
    is not, as a string, the requested id, no bytes are streamed: the answer
    is 403 [Signed link does not match file] if the requested document
    exists, is approved and has a stored path, and the 404 [File not found]
    of the existence guard if it is absent, has no stored path or is not
    approved. *)
Theorem C8_mismatched_signed_link_rejected
    (E : Env) (req : Request) (user : User) (payload : Claims) :
  authorizeOrSig E req = Next user ->
  u_sig user = Some payload ->
  Js.str_or (c_fileId payload) "" <> params_id req ->
  delivers (research_file E req) = false /\
  (forall r, findById E (params_id req) = Found (Some r) ->
             Js.truthy_opt (filePath r) = true -> status r = Some "approved" ->
             research_file E req = RError 403 "Signed link does not match file") /\
  (findById E (params_id req) = Found None \/
   (exists r, findById E (params_id req) = Found (Some r) /\
              (Js.truthy_opt (filePath r) = false \/ status r <> Some "approved")) ->
   research_file E req = RError 404 "File not found").
Proof.
  intros Hmw Hsig Hneq. unfold research_file. rewrite Hmw.
  split; [|split].
  - eapply fileHandler_mismatch_never_delivers; eassumption.
  - intros r Hfind Hp Hst.
    rewrite (fileHandler_deliverable E user _ r Hfind Hp Hst).
    unfold passesFileCheck. rewrite Hsig.
    apply String.eqb_neq in Hneq. now rewrite Hneq.
  - intros [Habs | (r & Hfind & [Hp | Hst])].
    + now apply fileHandler_absent.
    + eapply fileHandler_no_path; eassumption.
    + eapply fileHandler_unapproved; eassumption.
Qed.

Lemma C8_mismatched_signed_link_rejected_witness :
  research_file (Sample.server 0)
    (Sample.get "doc-embargo" (Some "Bearer tok-expired") (Some "sig-campus-doc"))
  = RError 403 "Signed link does not match file".
Proof.
  assert (Hneq : Js.str_or (c_fileId (Sample.capability "u-campus" "doc-campus")) ""
                 <> "doc-embargo") by discriminate.
  destruct (C8_mismatched_signed_link_rejected (Sample.server 0)
              (Sample.get "doc-embargo" (Some "Bearer tok-expired") (Some "sig-campus-doc"))
              _ (Sample.capability "u-campus" "doc-campus") eq_refl eq_refl Hneq)
    as (_ & H403 & _).
  exact (H403 Sample.docEmbargo eq_refl eq_refl eq_refl).
Defined.

(** C8, as stated, fails twice.  A signed link that verifies and is bound to
    [doc-campus] is answered 404, not 403, when it is presented for an id
    that has no document; and next to a bearer token that verifies, the same
    link is never looked at, so that a request for [doc-private] streams. *)
Lemma C8_counterexample :
  jwt_verify (Sample.server 0) "sig-campus-doc" (SIGNED_URL_SECRET (Sample.server 0)) None
    = Some (Sample.capability "u-campus" "doc-campus") /\
  research_file (Sample.server 0) (Sample.get "doc-absent" None (Some "sig-campus-doc"))
    = RError 404 "File not found" /\
  research_file (Sample.server 0)
    (Sample.get "doc-private" (Some "Bearer tok-staff") (Some "sig-campus-doc"))
    = RStream "/srv/app/uploads/research/a.pdf" "application/pdf" "a.pdf".
Proof. split; [|split]; reflexivity. Qed.

(** C9 (as amended).  The file streamer answers 404 in each of the three
    situations; the body is [File not found] when the document is absent or
    not approved, and [File not found on disk] when an approved document
    passed the access check but its bytes are missing. *)
Theorem C9_not_found_responses (E : Env) (user : User) (id : string) (m : Missing) :
  missingCase E user id m ->
  fileHandler E user id = RError 404 (missingBody m).
Proof.
  destruct m; cbn [missingCase missingBody].
  - apply fileHandler_absent.
  - intros (r & Hfind & Hst). eapply fileHandler_unapproved; eassumption.
  - intros (r & Hfind & Hst & Hp & Hpass & Hdisk).
    rewrite (fileHandler_deliverable E user id r Hfind Hp Hst), Hpass.
    unfold streamFile, resolveAbsPathFromDB. now rewrite Hp, Hdisk.
Qed.

Lemma C9_not_found_responses_witness :
  fileHandler (Sample.server 0) Sample.externalStaff "doc-lost"
  = RError 404 "File not found on disk".
Proof.
  apply (C9_not_found_responses (Sample.server 0) Sample.externalStaff "doc-lost"
           BytesMissingOnDisk).
  exists Sample.docLost. repeat (split; [reflexivity|]). reflexivity.
Defined.

(** C9, as stated, fails: for one and the same caller, an absent document
    and an approved document whose bytes are missing get two different
    bodies. *)
Lemma C9_counterexample :
  missingCase (Sample.server 0) Sample.externalStaff "doc-absent" DocumentAbsent /\
  missingCase (Sample.server 0) Sample.externalStaff "doc-lost" BytesMissingOnDisk /\
  fileHandler (Sample.server 0) Sample.externalStaff "doc-absent"
    = RError 404 "File not found" /\
  fileHandler (Sample.server 0) Sample.externalStaff "doc-lost"
    = RError 404 "File not found on disk" /\
  fileHandler (Sample.server 0) Sample.externalStaff "doc-absent"
    <> fileHandler (Sample.server 0) Sample.externalStaff "doc-lost".
Proof.
  split; [reflexivity|]. split.
  - exists Sample.docLost. repeat (split; [reflexivity|]). reflexivity.
  - split; [reflexivity|]. split; [reflexivity|]. discriminate.
Qed.

(* ----------------------------------------------------------------- *)
(** ** The repository routes *)


(** Where the list predicate and [canView] agree: for a user resolved from a
    bearer token that is neither owner nor staff, on an approved document
    that is public, campus, private with a lowercased allow-list, or under
    an embargo that has not ended. *)
Lemma listAdmits_agrees_with_canView (decoded : Claims) (r : Research) (t : Z) :
  isOwnerStaffOrAdviser r (bearerUser decoded) = false ->
  status r = Some "approved" ->
  visibility r = Some "public" \/
  visibility r = Some "campus" \/
  (visibility r = Some "private" /\ map Js.toLowerCase (allowList r) = allowList r) \/
  (visibility r = Some "embargo" /\ exists until, embargoUntil r = Some until /\ (t < until)%Z) ->
  listAdmits (bearerUser decoded) r t = canView r (bearerUser decoded) t.
Proof.
  intros Hown Hst Hvis. rewrite listAdmits_unfold, (notApproved_approved r Hst).
  rewrite bearerUser_isCampus. unfold visibilityIs.
  destruct Hvis as [Hv | [Hv | [[Hv Hl] | [Hv (until & Hu & Hlt)]]]]; rewrite Hv.
  - now rewrite (canView_public r _ t Hv).
  - rewrite (canView_campus r _ t Hown Hv). cbn.
    now rewrite andb_true_r.
  - rewrite (canView_private r _ t Hown Hv), Hl. unfold allowList. cbn.
    destruct (allowedViewers r); cbn; now rewrite ?andb_false_r, ?orb_false_r.
  - rewrite (canView_embargo r _ t until Hown Hv Hu), Hu. cbn.
    apply Z.leb_gt in Hlt. rewrite Hlt. now rewrite andb_false_r.
Qed.

(** Once an embargo has ended, the repository routes let every
    authenticated user in; the domain of the e-mail is not consulted. *)
Lemma repository_embargo_released (u : User) (r : Research) (t until : Z) :
  status r = Some "approved" -> visibility r = Some "embargo" ->
  embargoUntil r = Some until -> (until <= t)%Z ->
  listAdmits u r t = true /\ repositoryAllowed r u t = true.
Proof.
  intros Hst Hv Hu Hle. apply Z.leb_le in Hle.
  rewrite listAdmits_unfold, (notApproved_approved r Hst).
  unfold repositoryAllowed, visibilityIs. rewrite Hv, Hu, Hle. split; reflexivity.
Qed.

(** A document without a visibility field is selected by no clause of
    the repository routes. *)
Lemma repository_missing_visibility (u : User) (r : Research) (t : Z) :
  visibility r = None ->
  listAdmits u r t = false /\ repositoryAllowed r u t = false.
Proof.
  intros Hv. rewrite listAdmits_unfold.
  unfold repositoryAllowed, visibilityIs. rewrite Hv. cbn.
  now rewrite !andb_false_r.
Qed.

(** The projection of [GET /repository/:id] leaves [status] out, so the
    status guard of its handler never lets a document through. *)
Lemma detailHandler_never_answers (E : Env) (u : User) (id : string) :
  detailHandler E u id = RError 404 "Research not found" \/
  detailHandler E u id = RError 500 "Failed to fetch research".
Proof.
  unfold detailHandler, findByIdSelect.
  destruct (findById E id) as [|[r|]]; [now right | now left | now left].
Qed.

(** The staff override of [canView]. *)
Lemma canView_staff (r : Research) (u : User) (t : Z) :
  Js.toLowerCase (u_role u) = "staff" \/ Js.toLowerCase (u_role u) = "admin" ->
  canView r u t = true.
Proof.
  intros H. apply canView_owner. unfold isOwnerStaffOrAdviser.
  destruct H as [-> | ->]; cbn [String.eqb Ascii.eqb Bool.eqb orb];
    now rewrite ?orb_true_r.
Qed.

(** C1.  Run on an approved embargo document whose embargo ended at instant
    1000, at instant 2000, for a student with an external address who is
    neither owner nor staff: [canView] denies, and so does the signed-link
    route of [research.js]; the list filter of the repository admits the
    document and the signed-link route of the repository mints a link for
    it. *)
Theorem C1_embargo_released_external_principal :
  isOwnerStaffOrAdviser Sample.docEmbargo Sample.externalStudent = false /\
  u_isCampus Sample.externalStudent = false /\
  canView Sample.docEmbargo Sample.externalStudent 2000 = false /\
  research_file_signed (Sample.server 2000)
    (Sample.get "doc-embargo" (Some "Bearer tok-external") None)
    = RError 403 "Not authorized" /\
  listAdmits Sample.externalStudent Sample.docEmbargo 2000 = true /\
  delivers (repository_file_signed (Sample.server 2000)
    (Sample.get "doc-embargo" (Some "Bearer tok-external") None)) = true.
Proof. repeat (split; [reflexivity|]). reflexivity. Qed.

(** C2.  The list predicate and [canView] part on two approved documents,
    for principals that are neither owner nor staff: an embargo document
    whose embargo has ended is admitted by the predicate for an external
    student whom [canView] denies, and a document without a visibility field
    is refused by the predicate for a campus student whom [canView]
    allows. *)
Theorem C2_list_predicate_departs_from_canView :
  (isOwnerStaffOrAdviser Sample.docEmbargo Sample.externalStudent = false /\
   listAdmits Sample.externalStudent Sample.docEmbargo 2000 = true /\
   canView Sample.docEmbargo Sample.externalStudent 2000 = false) /\
  (isOwnerStaffOrAdviser Sample.docLegacy Sample.campusStudent = false /\
   listAdmits Sample.campusStudent Sample.docLegacy 2000 = false /\
   canView Sample.docLegacy Sample.campusStudent 2000 = true).
Proof. split; (repeat (split; [reflexivity|])); reflexivity. Qed.

(** C3.  Run on an approved campus document for a staff member with an
    external address: the routes of [research.js] mint a link and stream the
    file, the signed-link route of the repository answers 403, and the
    detail route of the repository answers 404. *)
Theorem C3_external_staff_on_campus_document :
  u_role Sample.externalStaff = "staff" /\
  u_isCampus Sample.externalStaff = false /\
  delivers (research_file_signed (Sample.server 2000)
    (Sample.get "doc-campus" (Some "Bearer tok-staff") None)) = true /\
  delivers (research_file (Sample.server 2000)
    (Sample.get "doc-campus" (Some "Bearer tok-staff") None)) = true /\
  repository_file_signed (Sample.server 2000)
    (Sample.get "doc-campus" (Some "Bearer tok-staff") None)
    = RError 403 "Not authorized" /\
  repository_detail (Sample.server 2000)
    (Sample.get "doc-campus" (Some "Bearer tok-staff") None)
    = RError 404 "Research not found".
Proof. repeat (split; [reflexivity|]). reflexivity. Qed.

(** C5.  Run on an approved document without a visibility field for a
    campus student who is neither owner nor staff: [canView] applies the
    campus rule and allows, and the routes of [research.js] deliver; the list
    filter of the repository refuses the document, its signed-link route
    answers 403 and its detail route 404. *)
Theorem C5_missing_visibility_campus_principal :
  visibility Sample.docLegacy = None /\
  isOwnerStaffOrAdviser Sample.docLegacy Sample.campusStudent = false /\
  u_isCampus Sample.campusStudent = true /\
  canView Sample.docLegacy Sample.campusStudent 2000 = true /\
  delivers (research_file_signed (Sample.server 2000)
    (Sample.get "doc-legacy" (Some "Bearer tok-campus") None)) = true /\
  listAdmits Sample.campusStudent Sample.docLegacy 2000 = false /\
  repository_file_signed (Sample.server 2000)
    (Sample.get "doc-legacy" (Some "Bearer tok-campus") None)
    = RError 403 "Not authorized" /\
  repository_detail (Sample.server 2000)
    (Sample.get "doc-legacy" (Some "Bearer tok-campus") None)
    = RError 404 "Research not found".
Proof. repeat (split; [reflexivity|]). reflexivity. Qed.

(* ================================================================= *)
(** * Further properties *)

(* ----------------------------------------------------------------- *)
(** ** Domain affiliation, continued *)

Lemma testLiteralAtEnd_iff (lit s : string) :
  Js.testLiteralAtEnd lit s = true <-> endsWith lit s.
Proof.
  unfold endsWith. induction s as [|c s IH]; cbn [Js.testLiteralAtEnd].
  - rewrite orb_false_r, String.eqb_eq. split.
    + intros <-. now exists "".
    + intros [[|a p] Hp]; [exact Hp | discriminate].
  - rewrite orb_true_iff, String.eqb_eq, IH. split.
    + intros [<- | [p ->]]; [now exists "" | now exists (String c p)].
    + intros [[|a p] Hp]; [now left | right].
      injection Hp as _ Hs. now exists p.
Qed.

(** X1.  [isMsuiitG] accepts exactly the addresses whose lowercased form
    ends with [@g.msuiit.edu.ph]: the match is anchored at the end of the
    address, so the domain followed by anything else is not accepted. *)
Theorem isMsuiitG_iff_endsWith (email : string) :
  isMsuiitG email = true <-> endsWith MSUIIT_DOMAIN (Js.toLowerCase email).
Proof. unfold isMsuiitG. apply testLiteralAtEnd_iff. Qed.

(** X2.  The two campus tests of the code base coincide: the pattern test
    [isMsuiitG] of the middleware holds exactly when [userDomain] of
    [research.js] returns the campus domain; hence the [isCampus] flag of a
    user resolved from a bearer token is the domain test of [canView]. *)
Theorem campus_tests_coincide (email : string) (decoded : Claims) :
  isMsuiitG email = (userDomain email =? MSUIIT_DOMAIN) /\
  u_isCampus (bearerUser decoded) =
    (userDomain (Js.toLowerCase (u_email (bearerUser decoded))) =? MSUIIT_DOMAIN).
Proof. split; [apply isMsuiitG_userDomain | apply bearerUser_isCampus]. Qed.

Lemma sliceFromLast_shape (c : ascii) (s : string) :
  match Js.sliceFromLast c s with
  | None => JsList.contains c s = false
  | Some d => exists d', d = String c d' /\ JsList.contains c d' = false /\ endsWith d s
  end.
Proof.
  induction s as [|a s IH]; cbn [Js.sliceFromLast JsList.contains].
  - reflexivity.
  - destruct (Js.sliceFromLast c s) as [d|].
    + destruct IH as (d' & -> & Hno & [p ->]).
      exists d'. repeat split; [assumption|]. now exists (String a p).
    + destruct (Ascii.eqb a c) eqn:Hac.
      * apply Ascii.eqb_eq in Hac. subst a. exists s.
        repeat split; [assumption|]. now exists "".
      * exact IH.
Qed.

(** X3.  [userDomain] returns the empty string exactly for an address
    without [@]; otherwise it returns the part of the lowercased address
    from its last [@] on: a string that starts with [@], has no other [@],
    and ends the lowercased address. *)
Theorem userDomain_shape (email : string) :
  (userDomain email = "" /\ JsList.contains "@" (Js.toLowerCase email) = false) \/
  (exists d, userDomain email = String "@" d /\ JsList.contains "@" d = false /\
             endsWith (userDomain email) (Js.toLowerCase email)).
Proof.
  unfold userDomain.
  pose proof (sliceFromLast_shape "@" (Js.toLowerCase email)) as H.
  destruct (Js.sliceFromLast "@" (Js.toLowerCase email)) as [d|].
  - right. destruct H as (d' & -> & Hno & Hend). now exists d'.
  - left. now split.
Qed.

(* ----------------------------------------------------------------- *)
(** ** The middlewares, continued *)




(** X5.  [authorize] honours [?token=] on GET requests only: a request with
    another method and no usable [Bearer] header is answered 401, whatever
    its query string carries. *)
Theorem authorize_query_token_get_only (E : Env) (roles : list string) (req : Request) :
  method req <> "GET" ->
  Js.startsWith "Bearer " (Js.str_or (authorization req) "") = false \/
  Js.slice 7 (Js.str_or (authorization req) "") = "" ->
  authorize E roles req = Reject 401 "Missing or invalid token".
Proof.
  intros Hm Hhdr. unfold authorize. apply String.eqb_neq in Hm. rewrite Hm.
  replace (Js.startsWith "Bearer " (Js.str_or (authorization req) "") &&
           Js.truthy (Js.slice 7 (Js.str_or (authorization req) ""))) with false.
  - reflexivity.
  - symmetry. destruct Hhdr as [-> | ->]; [reflexivity | apply andb_false_r].
Qed.

Lemma authorize_query_token_get_only_witness :
  authorize (Sample2.server 0) [] (Sample2.post None (Some "tok-staff"))
  = Reject 401 "Missing or invalid token".
Proof.
  apply (authorize_query_token_get_only (Sample2.server 0) []
           (Sample2.post None (Some "tok-staff"))).
  - discriminate.
  - left. reflexivity.
Defined.




(** X7.  In [authorizeOrSig] a bearer token that verifies settles the
    request by itself: with id, e-mail and role the request goes on as the
    bearer user, and without one of them it is answered 400; in neither case
    is [?sig] looked at, so a valid signed link does not rescue a bearer
    token that verifies but is incomplete. *)
Theorem verified_bearer_settles (E : Env) (req : Request) (decoded : Claims) :
  Js.startsWith "Bearer " (Js.str_or (authorization req) "") = true ->
  jwt_verify E (Js.slice 7 (Js.str_or (authorization req) "")) (JWT_SECRET E)
    (Some JWT_ISSUER) = Some decoded ->
  authorizeOrSig E req =
    (if hasBearerClaims decoded then Next (bearerUser decoded)
     else Reject 400 "Malformed token") /\
  forall req',
    authorization req' = authorization req ->
    authorizeOrSig E req' = authorizeOrSig E req.
Proof.
  intros Hb Hver. unfold authorizeOrSig. split.
  - rewrite Hb, Hver. now destruct (hasBearerClaims decoded).
  - intros req' ->. now rewrite Hb, Hver.
Qed.

Lemma verified_bearer_settles_witness :
  authorizeOrSig (Sample.server 0)
    (Sample.get "doc-private" (Some "Bearer tok-staff") (Some "sig-campus-doc"))
  = Next Sample.externalStaff.
Proof.
  exact (proj1 (verified_bearer_settles (Sample.server 0)
                  (Sample.get "doc-private" (Some "Bearer tok-staff") (Some "sig-campus-doc"))
                  (Sample.bearer "u-staff" "z@gmail.com" "staff") eq_refl eq_refl)).
Defined.

(* ----------------------------------------------------------------- *)
(** ** What is streamed and what is minted *)

Lemma notApproved_false (r : Research) :
  notApproved r = false -> status r = Some "approved".
Proof.
  unfold notApproved. destruct (status r) as [s|]; [|discriminate].
  intros H. apply negb_false_iff, String.eqb_eq in H. now subst.
Qed.

(** X8.  The file streamer opens a stream only for a document that exists,
    is approved and has a stored path, for a user who passed the access
    check (a signed link bound to the requested id, or [canView]), and only
    on a resolved path that exists on disk. *)
Theorem fileHandler_streams_only_when_allowed
    (E : Env) (user : User) (id : string) :
  delivers (fileHandler E user id) = true ->
  exists r,
    findById E id = Found (Some r) /\
    status r = Some "approved" /\
    Js.truthy_opt (filePath r) = true /\
    passesFileCheck E r user id = true /\
    fs_existsSync E (path_resolve E (Js.str_or (filePath r) "")) = true /\
    fileHandler E user id =
      RStream (path_resolve E (Js.str_or (filePath r) ""))
              (Js.str_or (fileType r) "application/pdf")
              (Js.str_or (fileName r) "document.pdf").
Proof.
  intros Hd.
  destruct (findById E id) as [|[r|]] eqn:Hfind;
    try (unfold fileHandler in Hd; rewrite Hfind in Hd; discriminate).
  destruct (Js.truthy_opt (filePath r)) eqn:Hp;
    [|rewrite (fileHandler_no_path E user id r Hfind Hp) in Hd; discriminate].
  destruct (notApproved r) eqn:Hna.
  { apply notApproved_iff in Hna.
    rewrite (fileHandler_unapproved E user id r Hfind Hna) in Hd. discriminate. }
  apply notApproved_false in Hna.
  rewrite (fileHandler_deliverable E user id r Hfind Hp Hna) in Hd |- *.
  destruct (passesFileCheck E r user id) eqn:Hpass; [|discriminate].
  unfold streamFile, resolveAbsPathFromDB in Hd |- *. rewrite Hp in Hd |- *.
  destruct (fs_existsSync E (path_resolve E (Js.str_or (filePath r) ""))) eqn:Hfs;
    [|discriminate].
  exists r. repeat split; reflexivity || assumption.
Qed.

Lemma fileHandler_streams_only_when_allowed_witness :
  exists r, findById (Sample.server 0) "doc-campus" = Found (Some r) /\
            passesFileCheck (Sample.server 0) r Sample.campusStudent "doc-campus" = true.
Proof.
  destruct (fileHandler_streams_only_when_allowed (Sample.server 0)
              Sample.campusStudent "doc-campus" eq_refl)
    as (r & Hfind & _ & _ & Hpass & _).
  exists r. split; assumption.
Defined.

Lemma signedHandler_cases (E : Env) (user : User) (id : string) :
  match findById E id with
  | Threw => signedHandler E user id = RError 500 "Failed to create signed URL"
  | Found None => signedHandler E user id = RError 404 "Not found"
  | Found (Some r) =>
      signedHandler E user id =
      if notApproved r then RError 404 "Not found"
      else if canView r user (now E)
      then RSignedUrl (doc_id r)
             {| c_id := None; c_email := None; c_role := None;
                c_sub := Some (u_id user); c_fileId := Some (doc_id r);
                c_isCampus := false |} 120
      else RError 403 "Not authorized"
  end.
Proof.
  unfold signedHandler. destruct (findById E id) as [|[r|]]; try reflexivity.
  destruct (notApproved r), (canView r user (now E)); reflexivity.
Qed.

Lemma signedHandler_mint_spec (E : Env) (user : User) (id : string) :
  (delivers (signedHandler E user id) = true <->
   exists r, findById E id = Found (Some r) /\ status r = Some "approved" /\
             canView r user (now E) = true) /\
  (forall target payload n,
     signedHandler E user id = RSignedUrl target payload n ->
     n = 120 /\
     payload = {| c_id := None; c_email := None; c_role := None;
                  c_sub := Some (u_id user); c_fileId := Some target;
                  c_isCampus := false |} /\
     exists r, findById E id = Found (Some r) /\ doc_id r = target).
Proof.
  pose proof (signedHandler_cases E user id) as H.
  destruct (findById E id) as [|[r|]] eqn:Hfind.
  - rewrite H. split; [split; [discriminate | intros (r & Hr & _); discriminate] | discriminate].
  - rewrite H. clear H. split.
    + split.
      * destruct (notApproved r) eqn:Hna; [discriminate|].
        destruct (canView r user (now E)) eqn:Hcv; [|discriminate].
        intros _. exists r. repeat split; [now apply notApproved_false | assumption].
      * intros (r0 & Hr0 & Hst & Hcv). injection Hr0 as <-.
        now rewrite (notApproved_approved r Hst), Hcv.
    + intros target payload n.
      destruct (notApproved r); [discriminate|].
      destruct (canView r user (now E)); [|discriminate].
      intros Heq. injection Heq as <- <- <-.
      repeat split. now exists r.
  - rewrite H. split; [split; [discriminate | intros (r & Hr & _); discriminate] | discriminate].
Qed.


Lemma repoSignedHandler_cases (E : Env) (user : User) (id : string) :
  match findById E id with
  | Threw => repoSignedHandler E user id = RError 500 "Failed to create signed URL"
  | Found None => repoSignedHandler E user id = RError 404 "Not found"
  | Found (Some r) =>
      repoSignedHandler E user id =
      if notApproved r then RError 404 "Not found"
      else if repositoryAllowed r user (now E)
      then RSignedUrl (doc_id r)
             {| c_id := None; c_email := Some (u_email user); c_role := Some (u_role user);
                c_sub := Some (u_id user); c_fileId := Some (doc_id r);
                c_isCampus := false |} 120
      else RError 403 "Not authorized"
  end.
Proof.
  unfold repoSignedHandler, findByIdSelect.
  destruct (findById E id) as [|[r|]]; try reflexivity.
  cbn [option_map]. rewrite notApproved_select_signed.
  change (repositoryAllowed (select signedFields r) user (now E))
    with (repositoryAllowed r user (now E)).
  change (doc_id (select signedFields r)) with (doc_id r).
  destruct (notApproved r), (repositoryAllowed r user (now E)); reflexivity.
Qed.

Lemma repoSignedHandler_mint_spec (E : Env) (user : User) (id : string) :
  (delivers (repoSignedHandler E user id) = true <->
   exists r, findById E id = Found (Some r) /\ status r = Some "approved" /\
             repositoryAllowed r user (now E) = true) /\
  (forall target payload n,
     repoSignedHandler E user id = RSignedUrl target payload n ->
     n = 120 /\
     payload = {| c_id := None; c_email := Some (u_email user);
                  c_role := Some (u_role user);
                  c_sub := Some (u_id user); c_fileId := Some target;
                  c_isCampus := false |} /\
     exists r, findById E id = Found (Some r) /\ doc_id r = target).
Proof.
  pose proof (repoSignedHandler_cases E user id) as H.
  destruct (findById E id) as [|[r|]] eqn:Hfind.
  - rewrite H. split; [split; [discriminate | intros (r & Hr & _); discriminate] | discriminate].
  - rewrite H. clear H. split.
    + split.
      * destruct (notApproved r) eqn:Hna; [discriminate|].
        destruct (repositoryAllowed r user (now E)) eqn:Hcv; [|discriminate].
        intros _. exists r. repeat split; [now apply notApproved_false | assumption].
      * intros (r0 & Hr0 & Hst & Hcv). injection Hr0 as <-.
        now rewrite (notApproved_approved r Hst), Hcv.
    + intros target payload n.
      destruct (notApproved r); [discriminate|].
      destruct (repositoryAllowed r user (now E)); [|discriminate].
      intros Heq. injection Heq as <- <- <-.
      repeat split. now exists r.
  - rewrite H. split; [split; [discriminate | intros (r & Hr & _); discriminate] | discriminate].
Qed.


(** X11.  A link minted by either signed-link route opens its document:
    when the token of the minted payload verifies on a later, header-less
    request for the id the link names, and the document is then still
    approved with a stored path, the file streamer goes on to the streaming
    steps without consulting [canView] again, whatever the visibility of
    the document has become. *)
Theorem minted_link_opens_its_document
    (E E' : Env) (user : User) (id target sig : string) (payload : Claims) (n : nat)
    (req' : Request) (r' : Research) :
  signedHandler E user id = RSignedUrl target payload n \/
  repoSignedHandler E user id = RSignedUrl target payload n ->
  u_id user <> "" -> target <> "" ->
  jwt_verify E' sig (SIGNED_URL_SECRET E') None = Some payload ->
  authorization req' = None ->
  query_sig req' = Some sig -> sig <> "" ->
  params_id req' = target ->
  findById E' target = Found (Some r') ->
  status r' = Some "approved" -> Js.truthy_opt (filePath r') = true ->
  research_file E' req' = streamFile E' r'.
Proof.
  intros Hmint Hid Htarget Hver Hhdr Hq Hsig Hparam Hfind Hst Hp.
  assert (Hpay : c_sub payload = Some (u_id user) /\ c_fileId payload = Some target).
  { destruct Hmint as [Hm | Hm].
    - destruct (proj2 (signedHandler_mint_spec E user id) _ _ _ Hm) as (_ & -> & _).
      now split.
    - destruct (proj2 (repoSignedHandler_mint_spec E user id) _ _ _ Hm) as (_ & -> & _).
      now split. }
  destruct Hpay as [Hsub Hfile].
  assert (Hmw : authorizeOrSig E' req' = sigPath E' req').
  { unfold authorizeOrSig. now rewrite Hhdr. }
  unfold research_file. rewrite Hmw.
  rewrite (sigPath_valid E' req' sig payload Hq Hsig Hver).
  - rewrite Hparam.
    rewrite (fileHandler_deliverable E' _ target r' Hfind Hp Hst).
    unfold passesFileCheck. cbn [u_sig]. rewrite Hfile.
    rewrite (JsFacts.str_or_some target "" Htarget), String.eqb_refl. reflexivity.
  - rewrite Hfile. cbn [Js.truthy_opt]. now apply JsFacts.truthy_true.
  - rewrite Hsub. cbn [Js.truthy_opt]. now apply JsFacts.truthy_true.
Qed.

Lemma minted_link_opens_its_document_witness :
  research_file (Sample2.server 5000)
    (Sample.get "doc-campus" None (Some "sig-campus-doc"))
  = RStream "/srv/app/uploads/research/a.pdf" "application/pdf" "a.pdf".
Proof.
  apply (minted_link_opens_its_document (Sample.server 0) (Sample2.server 5000)
           Sample.campusStudent "doc-campus" "doc-campus" "sig-campus-doc"
           (Sample.capability "u-campus" "doc-campus") 120
           (Sample.get "doc-campus" None (Some "sig-campus-doc")) Sample.docCampus).
  - left. reflexivity.
  - discriminate.
  - discriminate.
  - reflexivity.
  - reflexivity.
  - reflexivity.
  - discriminate.
  - reflexivity.
  - reflexivity.
  - reflexivity.
  - reflexivity.
Defined.

(* ----------------------------------------------------------------- *)
(** ** The gate [canView], continued *)

(** X12.  For a principal that is neither owner, uploader, adviser nor
    staff, [canView] on an embargo document allows exactly when the embargo
    date has been reached and the e-mail is a campus address: before the
    date it denies campus addresses too, and from the date on it still
    denies other addresses.  An embargo document without a date follows the
    campus rule. *)
Theorem canView_embargo_rule (r : Research) (u : User) (t : Z) :
  isOwnerStaffOrAdviser r u = false ->
  visibility r = Some "embargo" ->
  canView r u t =
  match embargoUntil r with
  | Some until =>
      (until <=? t)%Z && (userDomain (Js.toLowerCase (u_email u)) =? MSUIIT_DOMAIN)
  | None => userDomain (Js.toLowerCase (u_email u)) =? MSUIIT_DOMAIN
  end.
Proof.
  intros Hown Hvis. destruct (embargoUntil r) as [until|] eqn:Hemb.
  - now apply canView_embargo.
  - unfold canView. now rewrite Hown, Hvis, Hemb.
Qed.

Lemma canView_embargo_rule_witness :
  canView Sample.docEmbargo Sample.campusStudent 999 = false /\
  canView Sample.docEmbargo Sample.campusStudent 1000 = true /\
  canView Sample.docEmbargo Sample.externalStudent 1000 = false.
Proof.
  rewrite (canView_embargo_rule Sample.docEmbargo Sample.campusStudent 999 eq_refl eq_refl).
  rewrite (canView_embargo_rule Sample.docEmbargo Sample.campusStudent 1000 eq_refl eq_refl).
  rewrite (canView_embargo_rule Sample.docEmbargo Sample.externalStudent 1000 eq_refl eq_refl).
  split; [reflexivity | split; reflexivity].
Defined.

(** X13.  A user whose role is [staff] or [admin], in any letter case,
    passes [canView] on every document at every instant; so for a bearer
    user with such a role the file streamer goes on to the streaming steps
    for every approved document with a stored path, and
    [GET /research/file/:id/signed] mints a link for every approved
    document. *)
Theorem staff_override (E : Env) (u : User) (id : string) (r : Research) :
  Js.toLowerCase (u_role u) = "staff" \/ Js.toLowerCase (u_role u) = "admin" ->
  (forall r' t, canView r' u t = true) /\
  (u_sig u = None -> findById E id = Found (Some r) -> status r = Some "approved" ->
   delivers (signedHandler E u id) = true /\
   (Js.truthy_opt (filePath r) = true -> fileHandler E u id = streamFile E r)).
Proof.
  intros Hrole.
  assert (Hcv : forall r' t, canView r' u t = true) by (intros; now apply canView_staff).
  split; [exact Hcv|]. intros Hsig Hfind Hst. split.
  - apply (proj1 (signedHandler_mint_spec E u id)). exists r. now repeat split.
  - intros Hp. rewrite (fileHandler_deliverable E u id r Hfind Hp Hst).
    unfold passesFileCheck. now rewrite Hsig, Hcv.
Qed.

Lemma staff_override_witness :
  canView Sample.docPrivate Sample.externalStaff 0 = true /\
  fileHandler (Sample.server 0) Sample.externalStaff "doc-private"
  = streamFile (Sample.server 0) Sample.docPrivate.
Proof.
  destruct (staff_override (Sample.server 0) Sample.externalStaff "doc-private"
              Sample.docPrivate (or_introl eq_refl)) as [Hcv Hroutes].
  split; [apply Hcv|].
  exact (proj2 (Hroutes eq_refl eq_refl eq_refl) eq_refl).
Defined.

(** X14.  For a principal that is neither owner, uploader, adviser nor
    staff, [canView] applies the campus rule whenever the lowercased
    visibility is none of [public], [private] and [embargo]: that is for
    [campus], for a missing or empty value (read as [campus]), and for any
    unknown value. *)
Theorem canView_campus_rule_by_default (r : Research) (u : User) (t : Z) :
  isOwnerStaffOrAdviser r u = false ->
  Js.toLowerCase (Js.str_or (visibility r) "campus") <> "public" ->
  Js.toLowerCase (Js.str_or (visibility r) "campus") <> "private" ->
  Js.toLowerCase (Js.str_or (visibility r) "campus") <> "embargo" ->
  canView r u t = (userDomain (Js.toLowerCase (u_email u)) =? MSUIIT_DOMAIN).
Proof.
  intros Hown Hpub Hpri Hemb. unfold canView. rewrite Hown. cbv zeta.
  apply String.eqb_neq in Hpub, Hpri, Hemb. rewrite Hemb, Hpub, Hpri.
  now destruct (Js.toLowerCase (Js.str_or (visibility r) "campus") =? "campus").
Qed.

Lemma canView_campus_rule_by_default_witness :
  canView Sample.docLegacy Sample.campusStudent 0 = true /\
  canView Sample.docLegacy Sample.externalStudent 0 = false.
Proof.
  assert (H : forall u, isOwnerStaffOrAdviser Sample.docLegacy u = false ->
                        canView Sample.docLegacy u 0 =
                        (userDomain (Js.toLowerCase (u_email u)) =? MSUIIT_DOMAIN)).
  { intros u Hown.
    apply (canView_campus_rule_by_default Sample.docLegacy u 0 Hown); discriminate. }
  split; rewrite H; reflexivity.
Defined.

Lemma canView_time_independent_or_embargo (r : Research) (u : User) (t t' : Z) :
  (t <= t')%Z -> canView r u t = true -> canView r u t' = true.
Proof.
  intros Hle. unfold canView.
  destruct (isOwnerStaffOrAdviser r u); [reflexivity|]. cbv zeta.
  destruct (Js.toLowerCase (Js.str_or (visibility r) "campus") =? "embargo");
    [|trivial].
  destruct (embargoUntil r) as [until|]; [|trivial].
  destruct (t <? until)%Z eqn:Ht; [discriminate|].
  apply Z.ltb_ge in Ht.
  assert (Ht' : (t' <? until)%Z = false) by (apply Z.ltb_ge; lia).
  now rewrite Ht'.
Qed.

(** X15.  Access is never withdrawn by the passing of time alone: whatever
    [canView], the repository visibility test or the list predicate allows
    at one instant, it allows at every later instant, for the same document
    and user. *)
Theorem access_monotone_in_time (r : Research) (u : User) (t t' : Z) :
  (t <= t')%Z ->
  (canView r u t = true -> canView r u t' = true) /\
  (repositoryAllowed r u t = true -> repositoryAllowed r u t' = true) /\
  (listAdmits u r t = true -> listAdmits u r t' = true).
Proof.
  intros Hle.
  assert (Hemb : match embargoUntil r with
                 | Some until => (until <=? t)%Z
                 | None => false
                 end = true ->
                 match embargoUntil r with
                 | Some until => (until <=? t')%Z
                 | None => false
                 end = true).
  { destruct (embargoUntil r) as [until|]; [|trivial].
    rewrite !Z.leb_le. lia. }
  split; [now apply canView_time_independent_or_embargo | split].
  - unfold repositoryAllowed. rewrite !orb_true_iff, !andb_true_iff.
    intros [[[H | [H1 H2]] | H] | H]; auto. left; left; right. auto.
  - rewrite !listAdmits_unfold. rewrite !andb_true_iff, !orb_true_iff, !andb_true_iff.
    intros [Hst [[[H | [H1 H2]] | H] | H]]; split; auto.
    left; left; right. auto.
Qed.

Lemma access_monotone_in_time_witness :
  canView Sample.docEmbargo Sample.campusStudent 5000 = true.
Proof.
  apply (proj1 (access_monotone_in_time Sample.docEmbargo Sample.campusStudent
                  1000 5000 ltac:(lia))).
  reflexivity.
Defined.

(* ----------------------------------------------------------------- *)
(** ** The repository routes, continued *)

Lemma visibilityIs_true (r : Research) (v : string) :
  visibilityIs r v = true <-> visibility r = Some v.
Proof.
  unfold visibilityIs. destruct (visibility r) as [s|].
  - rewrite String.eqb_eq. split; congruence.
  - split; discriminate.
Qed.

(** X16.  For a user resolved from a bearer token, the visibility test of
    the repository never allows what [canView] denies, except in one case:
    an embargo document whose date has been reached, for a user without a
    campus address. *)
Theorem repositoryAllowed_within_canView (decoded : Claims) (r : Research) (t : Z) :
  repositoryAllowed r (bearerUser decoded) t = true ->
  canView r (bearerUser decoded) t = true \/
  (visibility r = Some "embargo" /\ u_isCampus (bearerUser decoded) = false /\
   exists until, embargoUntil r = Some until /\ (until <= t)%Z).
Proof.
  pose proof (bearerUser_isCampus decoded) as Hdom.
  destruct (isOwnerStaffOrAdviser r (bearerUser decoded)) eqn:Hown;
    [intros _; left; now apply canView_owner|].
  unfold repositoryAllowed. rewrite !orb_true_iff, !andb_true_iff, !visibilityIs_true.
  intros [[[Hv | [Hv Hu]] | [Hv Hc]] | [Hv Hl]].
  - left. now apply canView_public.
  - destruct (embargoUntil r) as [until|] eqn:Hemb; [|discriminate].
    destruct (u_isCampus (bearerUser decoded)) eqn:Hc.
    + left. rewrite (canView_embargo r _ t until Hown Hv Hemb), Hu.
      now rewrite <- Hdom.
    + right. repeat split; try assumption. exists until. split; [reflexivity|].
      now apply Z.leb_le.
  - left. rewrite (canView_campus r _ t Hown Hv). now rewrite <- Hdom.
  - left. rewrite (canView_private r _ t Hown Hv). unfold allowList.
    now destruct (allowedViewers r).
Qed.

Lemma repositoryAllowed_within_canView_witness :
  canView Sample.docCampus Sample.campusStudent 0 = true \/
  (visibility Sample.docCampus = Some "embargo" /\
   u_isCampus Sample.campusStudent = false /\
   exists until, embargoUntil Sample.docCampus = Some until /\ (until <= 0)%Z).
Proof.
  exact (repositoryAllowed_within_canView
           (Sample.bearer "u-campus" "X@g.msuiit.edu.ph" "student") Sample.docCampus 0 eq_refl).
Defined.

(** X17.  For a user resolved from a bearer token that is neither owner,
    uploader, adviser nor staff, the visibility test of the repository and
    [canView] return the same decision on every public, campus and private
    document, and on every embargo document with a date as long as the date
    has not been reached or the user has a campus address. *)
Theorem repositoryAllowed_agrees_with_canView (decoded : Claims) (r : Research) (t : Z) :
  isOwnerStaffOrAdviser r (bearerUser decoded) = false ->
  visibility r = Some "public" \/
  visibility r = Some "campus" \/
  visibility r = Some "private" \/
  (visibility r = Some "embargo" /\
   exists until, embargoUntil r = Some until /\
                 ((t < until)%Z \/ u_isCampus (bearerUser decoded) = true)) ->
  repositoryAllowed r (bearerUser decoded) t = canView r (bearerUser decoded) t.
Proof.
  intros Hown Hvis. pose proof (bearerUser_isCampus decoded) as Hdom.
  unfold repositoryAllowed, visibilityIs.
  destruct Hvis as [Hv | [Hv | [Hv | [Hv (until & Hu & Hcase)]]]]; rewrite Hv;
    cbn [String.eqb Ascii.eqb Bool.eqb andb orb].
  - now rewrite (canView_public r _ t Hv).
  - rewrite (canView_campus r _ t Hown Hv), <- Hdom.
    now rewrite orb_false_r.
  - rewrite (canView_private r _ t Hown Hv). unfold allowList.
    now destruct (allowedViewers r).
  - rewrite (canView_embargo r _ t until Hown Hv Hu), Hu, <- Hdom.
    rewrite !orb_false_r. destruct Hcase as [Hlt | Hc].
    + apply Z.leb_gt in Hlt. now rewrite Hlt.
    + now rewrite Hc, andb_true_r.
Qed.

Lemma repositoryAllowed_agrees_with_canView_witness :
  repositoryAllowed Sample.docPrivate Sample.reader 0 = canView Sample.docPrivate Sample.reader 0.
Proof.
  apply (repositoryAllowed_agrees_with_canView
           (Sample.bearer "u-reader" "READER@example.ORG" "student") Sample.docPrivate 0).
  - reflexivity.
  - right; right; left. reflexivity.
Defined.

(** X18.  On a stored document whose allow-list is in lower case (as the
    writers of the collection keep it), the list predicate of the
    repository selects the document exactly when it is approved and the
    single-document visibility test of the repository allows the user. *)
Theorem listAdmits_is_repositoryAllowed (u : User) (r : Research) (t : Z) :
  map Js.toLowerCase (allowList r) = allowList r ->
  listAdmits u r t = negb (notApproved r) && repositoryAllowed r u t.
Proof.
  intros Hlow. rewrite listAdmits_unfold. unfold repositoryAllowed. f_equal.
  unfold allowList in Hlow.
  destruct (allowedViewers r) as [l|]; [rewrite Hlow|];
    destruct (visibilityIs r "public"), (visibilityIs r "embargo"),
             (visibilityIs r "private"), (visibilityIs r "campus"),
             (u_isCampus u); cbn; rewrite ?orb_false_r, ?orb_true_r; reflexivity.
Qed.

Lemma listAdmits_is_repositoryAllowed_witness :
  listAdmits Sample.campusStudent Sample.docCampus 0 = true.
Proof.
  rewrite (listAdmits_is_repositoryAllowed Sample.campusStudent Sample.docCampus 0 eq_refl).
  reflexivity.
Defined.

(** X19.  Once the embargo date of an approved embargo document has been
    reached, the repository lets every authenticated user at it, campus
    address or not: the list predicate selects the document and
    [GET /repository/file/:id/signed] mints a link for it. *)
Theorem repository_opens_released_embargo
    (E : Env) (u : User) (id : string) (r : Research) (until : Z) :
  findById E id = Found (Some r) ->
  status r = Some "approved" -> visibility r = Some "embargo" ->
  embargoUntil r = Some until -> (until <= now E)%Z ->
  listAdmits u r (now E) = true /\
  delivers (repoSignedHandler E u id) = true.
Proof.
  intros Hfind Hst Hv Hu Hle.
  destruct (repository_embargo_released u r (now E) until Hst Hv Hu Hle) as [Hl Ha].
  split; [assumption|].
  apply (proj1 (repoSignedHandler_mint_spec E u id)). exists r. now repeat split.
Qed.

Lemma repository_opens_released_embargo_witness :
  delivers (repoSignedHandler (Sample.server 2000) Sample.externalStudent "doc-embargo") = true.
Proof.
  apply (repository_opens_released_embargo (Sample.server 2000) Sample.externalStudent
           "doc-embargo" Sample.docEmbargo 1000 eq_refl eq_refl eq_refl eq_refl).
  discriminate.
Defined.

(** X20.  The repository compares the stored visibility letter for letter:
    a document whose visibility is absent or is not exactly one of [public],
    [campus], [private], [embargo] (an unknown value, or a known one in
    another letter case) is selected by the list predicate for nobody, and
    [GET /repository/file/:id/signed] mints a link to it for nobody. *)
Theorem repository_denies_other_visibility
    (E : Env) (u : User) (id : string) (r : Research) (t : Z) :
  notAClass r ->
  listAdmits u r t = false /\ repositoryAllowed r u t = false /\
  (findById E id = Found (Some r) -> delivers (repoSignedHandler E u id) = false).
Proof.
  intros Hno.
  assert (Hvis : forall v, In v ALLOWED_VIS -> visibilityIs r v = false).
  { intros v Hv. destruct (visibilityIs r v) eqn:H; [|reflexivity].
    apply visibilityIs_true in H. now elim (Hno v Hv). }
  assert (Hpub := Hvis "public" ltac:(cbn; tauto)).
  assert (Hcam := Hvis "campus" ltac:(cbn; tauto)).
  assert (Hpri := Hvis "private" ltac:(cbn; tauto)).
  assert (Hemb := Hvis "embargo" ltac:(cbn; tauto)).
  assert (Hrepo : forall t', repositoryAllowed r u t' = false).
  { intros t'. unfold repositoryAllowed. now rewrite Hpub, Hcam, Hpri, Hemb. }
  split; [|split].
  - rewrite listAdmits_unfold, Hpub, Hcam, Hpri, Hemb. cbn.
    now rewrite !andb_false_r.
  - apply Hrepo.
  - intros Hfind.
    destruct (delivers (repoSignedHandler E u id)) eqn:Hd; [|reflexivity].
    apply (proj1 (repoSignedHandler_mint_spec E u id)) in Hd.
    destruct Hd as (r0 & Hr0 & _ & Hall). rewrite Hfind in Hr0. injection Hr0 as <-.
    now rewrite Hrepo in Hall.
Qed.

Lemma repository_denies_other_visibility_witness :
  listAdmits Sample.campusStudent Sample.docLegacy 0 = false.
Proof.
  assert (Hno : notAClass Sample.docLegacy) by (intros v _; discriminate).
  exact (proj1 (repository_denies_other_visibility (Sample.server 0) Sample.campusStudent
                  "doc-legacy" Sample.docLegacy 0 Hno)).
Defined.

(** X21.  [GET /repository/:id] never answers with a record: its
    projection leaves [status] out, so its own status guard rejects every
    document; whatever the request, the answer is an error. *)
Theorem repository_detail_never_answers (E : Env) (req : Request) :
  exists code error, repository_detail E req = RError code error.
Proof.
  unfold repository_detail.
  destruct (authorize E [] req) as [code error | user].
  - now exists code, error.
  - destruct (detailHandler_never_answers E user (params_id req)) as [-> | ->];
      eexists; eexists; reflexivity.
Qed.

Lemma forallb_app_bool {A : Type} (f : A -> bool) (l1 l2 : list A) :
  forallb f (l1 ++ l2)%list = forallb f l1 && forallb f l2.
Proof. induction l1 as [|a l1 IH]; cbn; [reflexivity | now rewrite IH, andb_assoc]. Qed.

(** X22.  The filters that a caller adds to a repository search can only
    narrow the answer: a document matches the filter built with extra
    conjuncts exactly when the list predicate of the user selects it and it
    matches every conjunct. *)
Theorem caller_filters_only_narrow (u : User) (parts : list Filter) (r : Research) (t : Z) :
  matches (buildAllowedFilter u (Some parts) t) r =
  listAdmits u r t && forallb (fun g => matches g r) parts.
Proof.
  unfold listAdmits, buildAllowedFilter.
  cbn [matches]. rewrite !forallb_app_bool. cbn [forallb matches].
  now rewrite !andb_true_r.
Qed.

(* ----------------------------------------------------------------- *)
(** ** The list routes *)

Lemma select_status_approvedList (d : Research) :
  status (select approvedListFields d) = status d.
Proof. reflexivity. Qed.

Lemma approvedListFilter_student (user : User) (oid : string) (d : Research) :
  Js.toLowerCase (u_role user) = "student" ->
  matches (approvedListFilter user oid) d = true ->
  status d = Some "approved" /\
  (student d = Some (Js.toLowerCase (u_email user)) \/
   author d = Some (Js.toLowerCase (u_email user)) \/
   uploadedBy d = Some oid).
Proof.
  intros Hrole. unfold approvedListFilter. rewrite Hrole.
  cbn [String.eqb Ascii.eqb Bool.eqb matches forallb existsb fieldValue condMatch].
  rewrite !andb_true_r, !orb_false_r, andb_true_iff, !orb_true_iff.
  intros [Hst Hown]. split.
  - destruct (status d) as [s|]; [|discriminate]. cbn in Hst.
    apply String.eqb_eq in Hst. now subst.
  - destruct Hown as [H | [H | H]]; [left | right; left | right; right].
    + destruct (student d) as [s|]; [|discriminate]. cbn in H.
      apply String.eqb_eq in H. now subst.
    + destruct (author d) as [s|]; [|discriminate]. cbn in H.
      apply String.eqb_eq in H. now subst.
    + destruct (uploadedBy d) as [s|]; [|discriminate]. cbn in H.
      apply String.eqb_eq in H. now subst.
Qed.

Lemma approvedListFilter_approved (user : User) (oid : string) (d : Research) :
  matches (approvedListFilter user oid) d = true -> status d = Some "approved".
Proof.
  unfold approvedListFilter.
  destruct (Js.toLowerCase (u_role user) =? "student");
    [|destruct ((Js.toLowerCase (u_role user) =? "staff") ||
                (Js.toLowerCase (u_role user) =? "admin"))];
    cbn [matches forallb fieldValue String.eqb Ascii.eqb Bool.eqb condMatch];
    rewrite andb_true_iff; intros [Hst _];
    (destruct (status d) as [s|]; [|discriminate]); cbn in Hst;
    rewrite andb_true_r in Hst; apply String.eqb_eq in Hst; now subst.
Qed.

Lemma owner_by_stored_field (d : Research) (user : User) :
  student d = Some (Js.toLowerCase (u_email user)) \/
  author d = Some (Js.toLowerCase (u_email user)) \/
  uploadedBy d = Some (u_id user) ->
  isOwnerStaffOrAdviser d user = true.
Proof.
  intros H. unfold isOwnerStaffOrAdviser.
  destruct H as [H | [H | H]].
  - replace (Js.includes _ _) with true; [reflexivity|].
    symmetry. apply JsFacts.includes_In. left.
    now rewrite H, JsFacts.str_or_empty, JsFacts.toLowerCase_idem.
  - replace (Js.includes _ _) with true; [reflexivity|].
    symmetry. apply JsFacts.includes_In. right. left.
    now rewrite H, JsFacts.str_or_empty, JsFacts.toLowerCase_idem.
  - rewrite H, (JsFacts.str_or_empty (Some (u_id user))), String.eqb_refl.
    now rewrite orb_true_r.
Qed.

(** X23.  [GET /research/] shows a student own records only: when the id
    of the token is a canonical ObjectId string, every record in the answer
    is the projection of a stored approved document of which the student is
    the student submitter, the author or the uploader, and which [canView]
    therefore lets the student view at every instant. *)
Theorem student_list_shows_own_records
    (E : Env) (sortStage : list Research -> list Research) (req : Request)
    (user : User) (items : list Research) :
  (forall l x, In x (sortStage l) -> In x l) ->
  authorize E [] req = Next user ->
  Js.toLowerCase (u_role user) = "student" ->
  castObjectId E (u_id user) = Some (u_id user) ->
  research_list E sortStage req = LList items ->
  forall x, In x items ->
    exists d, In d (collection E) /\ x = select approvedListFields d /\
              status d = Some "approved" /\
              isOwnerStaffOrAdviser d user = true /\
              forall t, canView d user t = true.
Proof.
  intros Hsort Hauth Hrole Hcast. unfold research_list. rewrite Hauth, Hcast.
  intros Hlist. injection Hlist as <-. intros x Hx.
  apply in_map_iff in Hx. destruct Hx as (d & <- & Hd).
  apply Hsort in Hd. unfold Research_find in Hd. apply filter_In in Hd.
  destruct Hd as [Hin Hm].
  destruct (approvedListFilter_student user _ d Hrole Hm) as [Hst Hown].
  pose proof (owner_by_stored_field d user Hown) as Ho.
  exists d. repeat split; try assumption.
  intros t. now apply canView_owner.
Qed.

Lemma student_list_shows_own_records_witness :
  research_list (Sample2.server 0) (fun l => l)
    (Sample.get "" (Some "Bearer tok-campus") None)
  = LList [select approvedListFields Sample2.studentDoc] /\
  canView Sample2.studentDoc Sample.campusStudent 0 = true.
Proof.
  split; [reflexivity|].
  destruct (student_list_shows_own_records (Sample2.server 0) (fun l => l)
              (Sample.get "" (Some "Bearer tok-campus") None) Sample.campusStudent
              [select approvedListFields Sample2.studentDoc]
              (fun l x H => H) eq_refl eq_refl eq_refl eq_refl
              (select approvedListFields Sample2.studentDoc) (or_introl eq_refl))
    as (d & Hin & Hsel & _ & _ & Hcv).
  cbn in Hin.
  destruct Hin as [<- | [<- | [<- | [<- | [<- | []]]]]]; try discriminate Hsel.
  apply Hcv.
Defined.

(** X24.  [GET /research/] never shows a record that is not approved:
    whatever the role of the user, every record in the answer is the
    projection of a stored document whose status is [approved]. *)
Theorem research_list_only_approved
    (E : Env) (sortStage : list Research -> list Research) (req : Request)
    (items : list Research) :
  (forall l x, In x (sortStage l) -> In x l) ->
  research_list E sortStage req = LList items ->
  forall x, In x items ->
    status x = Some "approved" /\
    exists d, In d (collection E) /\ x = select approvedListFields d /\
              status d = Some "approved".
Proof.
  intros Hsort. unfold research_list.
  destruct (authorize E [] req) as [code error | user]; [discriminate|].
  destruct (castObjectId E (u_id user)) as [oid|]; [|discriminate].
  intros Hlist. injection Hlist as <-. intros x Hx.
  apply in_map_iff in Hx. destruct Hx as (d & <- & Hd).
  apply Hsort in Hd. unfold Research_find in Hd. apply filter_In in Hd.
  destruct Hd as [Hin Hm]. apply approvedListFilter_approved in Hm.
  rewrite select_status_approvedList. split; [assumption|]. now exists d.
Qed.

Lemma research_list_only_approved_witness :
  research_list (Sample2.server 0) (fun l => l)
    (Sample.get "" (Some "Bearer tok-staff") None)
  = LList [select approvedListFields Sample.docCampus;
           select approvedListFields Sample.docEmbargo;
           select approvedListFields Sample.docPrivate;
           select approvedListFields Sample2.studentDoc] /\
  status (select approvedListFields Sample.docPrivate) = Some "approved".
Proof.
  split; [reflexivity|].
  apply (research_list_only_approved (Sample2.server 0) (fun l => l)
           (Sample.get "" (Some "Bearer tok-staff") None) _ (fun l y H => H) eq_refl).
  right; right; left. reflexivity.
Defined.

(** X25.  [GET /research/] does not look at visibility: to a user whose
    role is not [student] it shows every approved document that a staff
    member or an administrator uploaded, private and embargo documents
    included. *)
Theorem research_list_ignores_visibility
    (E : Env) (sortStage : list Research -> list Research) (req : Request)
    (user : User) (d : Research) :
  (forall l x, In x l -> In x (sortStage l)) ->
  authorize E [] req = Next user ->
  Js.toLowerCase (u_role user) <> "student" ->
  castObjectId E (u_id user) <> None ->
  In d (collection E) ->
  status d = Some "approved" ->
  uploaderRole d = Some "staff" \/ uploaderRole d = Some "admin" ->
  exists items, research_list E sortStage req = LList items /\
                In (select approvedListFields d) items.
Proof.
  intros Hsort Hauth Hrole Hcast Hin Hst Hup. unfold research_list. rewrite Hauth.
  destruct (castObjectId E (u_id user)) as [oid|]; [|now elim Hcast].
  eexists. split; [reflexivity|].
  apply in_map, Hsort. unfold Research_find. apply filter_In. split; [assumption|].
  unfold approvedListFilter. apply String.eqb_neq in Hrole. rewrite Hrole.
  destruct ((Js.toLowerCase (u_role user) =? "staff") ||
            (Js.toLowerCase (u_role user) =? "admin"));
    cbn [matches forallb existsb fieldValue String.eqb Ascii.eqb Bool.eqb condMatch];
    rewrite Hst; destruct Hup as [-> | ->]; reflexivity.
Qed.

Lemma research_list_ignores_visibility_witness :
  exists items,
    research_list (Sample2.server 0) (fun l => l)
      (Sample.get "" (Some "Bearer tok-staff") None) = LList items /\
    In (select approvedListFields Sample.docPrivate) items.
Proof.
  apply (research_list_ignores_visibility (Sample2.server 0) (fun l => l)
           (Sample.get "" (Some "Bearer tok-staff") None) Sample.externalStaff
           Sample.docPrivate (fun l x H => H) eq_refl).
  - discriminate.
  - discriminate.
  - right; right; left. reflexivity.
  - reflexivity.
  - left. reflexivity.
Defined.






(* ----------------------------------------------------------------- *)
(** ** Values written by the upload route *)

(** X27.  [POST /research/upload] stores one of the four visibility classes
    in lower case, whatever the request body holds: a recognised value is
    stored lowercased, a missing or unrecognised one as [campus].  On a
    document that carries such a value, [canView] never takes its fallback
    branch and the repository routes find the class they compare with. *)
Theorem uploadVisibility_is_a_class (visibility0 : option string) :
  In (uploadVisibility visibility0) ALLOWED_VIS /\
  (uploadVisibility visibility0 = Js.toLowerCase (Js.str_or visibility0 "") \/
   uploadVisibility visibility0 = "campus") /\
  (forall r, visibility r = Some (uploadVisibility visibility0) ->
             ~ unknownVisibility r /\ ~ notAClass r).
Proof.
  assert (Hin : In (uploadVisibility visibility0) ALLOWED_VIS).
  { unfold uploadVisibility.
    destruct (Js.includes ALLOWED_VIS (Js.toLowerCase (Js.str_or visibility0 ""))) eqn:H.
    - now apply JsFacts.includes_In.
    - right. now left. }
  split; [exact Hin|]. split.
  - unfold uploadVisibility.
    destruct (Js.includes ALLOWED_VIS (Js.toLowerCase (Js.str_or visibility0 "")));
      [now left | now right].
  - intros r Hr. split.
    + unfold unknownVisibility. rewrite Hr.
      destruct Hin as [<- | [<- | [<- | [<- | []]]]]; cbn; tauto.
    + intros Hno. exact (Hno _ Hin Hr).
Qed.

(* ----------------------------------------------------------------- *)
(** ** List parsing *)

Lemma trimStart_idem (s : string) : Js.trimStart (Js.trimStart s) = Js.trimStart s.
Proof.
  induction s as [|c s IH]; cbn [Js.trimStart]; [reflexivity|].
  destruct (Js.is_space c) eqn:Hc; [exact IH|].
  cbn [Js.trimStart]. now rewrite Hc.
Qed.

Lemma trimEnd_idem (s : string) : Js.trimEnd (Js.trimEnd s) = Js.trimEnd s.
Proof.
  induction s as [|c s IH]; cbn [Js.trimEnd]; [reflexivity|].
  destruct (Js.is_space c && (Js.trimEnd s =? "")) eqn:Hc; [reflexivity|].
  cbn [Js.trimEnd]. now rewrite IH, Hc.
Qed.

Lemma trimEnd_trimStart (s : string) :
  Js.trimEnd (Js.trimStart s) = Js.trimStart (Js.trimEnd s).
Proof.
  induction s as [|c s IH]; [reflexivity|].
  cbn [Js.trimStart Js.trimEnd].
  destruct (Js.is_space c) eqn:Hc.
  - rewrite IH. destruct (Js.trimEnd s =? "") eqn:He; cbn [andb].
    + apply String.eqb_eq in He. now rewrite He.
    + cbn [Js.trimStart]. now rewrite Hc.
  - cbn [andb Js.trimStart Js.trimEnd]. now rewrite Hc.
Qed.

Lemma trim_idem (s : string) : Js.trim (Js.trim s) = Js.trim s.
Proof.
  unfold Js.trim.
  now rewrite trimEnd_trimStart, trimEnd_idem, trimStart_idem.
Qed.

Lemma normalise_clean (l : list string) :
  cleanEntries (filter Js.truthy (map Js.trim l)).
Proof.
  intros e He. apply filter_In in He. destruct He as [Hin Ht].
  apply in_map_iff in Hin. destruct Hin as (x & <- & _).
  split; [now apply JsFacts.truthy_true | apply trim_idem].
Qed.

Lemma normalise_fixed (l : list string) :
  cleanEntries l -> filter Js.truthy (map Js.trim l) = l.
Proof.
  induction l as [|e l IH]; intros Hc; [reflexivity|].
  destruct (Hc e (or_introl eq_refl)) as [Hne Htrim].
  cbn [map filter]. rewrite Htrim, (proj2 (JsFacts.truthy_true e) Hne).
  f_equal. apply IH. intros x Hx. apply Hc. now right.
Qed.

(** X28.  [toArray] returns a normalised list for every input: no entry is
    empty and none has white space at either end.  Normalising again changes
    nothing, and a list that is already normalised is returned as it is. *)
Theorem toArray_normalises (v : CsvOrArr) :
  cleanEntries (toArray v) /\
  toArray (ArrayValue (toArray v)) = toArray v /\
  (forall l, cleanEntries l -> toArray (ArrayValue l) = l).
Proof.
  assert (Hclean : cleanEntries (toArray v)).
  { destruct v as [|l|s]; cbn [toArray].
    - intros e [].
    - apply normalise_clean.
    - destruct (Js.truthy s); [apply normalise_clean | intros e []]. }
  split; [exact Hclean|]. split.
  - cbn [toArray]. now apply normalise_fixed.
  - intros l Hl. cbn [toArray]. now apply normalise_fixed.
Qed.

(** X29.  [toList] of the repository routes and [toArray] of the research
    routes parse a comma-separated string alike; an absent value and the
    empty string both give the empty list. *)
Theorem toList_is_toArray (v : option string) :
  toList v = toArray (match v with Some s => StringValue s | None => NoValue end) /\
  toList None = [] /\ toList (Some "") = [].
Proof.
  split; [|split; reflexivity].
  destruct v as [s|]; [|reflexivity].
  unfold toList, toArray, Js.str_or.
  destruct (Js.truthy s) eqn:Hs; reflexivity.
Qed.
